(** * Luxury Hijabi: the persistent commerce state layer

    A shallow embedding of the browser-side stores of the storefront
    (authStore.js, cartStore.js, favoritesStore.js, recentlyViewedStore.js,
    useTheme.js) and of the page handlers that write storage directly
    (Profile.jsx, Orders.jsx, Login.jsx, Checkout.jsx, StripePayment.jsx),
    together with the properties the specification states about them.

    Conventions of the embedding:
    - every localStorage key a store owns is a typed slot of a state record
      holding what the store reads from the key: a missing key and a text
      that does not parse both read as the empty value, as [load] has it in
      the source. The orders key is the exception, since [placeOrder] gives
      up on a history it cannot read where [getOrders] reads it as empty:
      its slot says whether the text under the key can be read. The browser
      is taken to accept every write;
    - a JavaScript string is the [string] of its UTF-8 bytes, as the string
      literals of this file are; [JS.str_length] counts its UTF-16 code
      units. [toLowerCase], [trim] and [parseInt] are built-ins of the
      engine: they are the fields of the class [JS.Builtins], and the stores
      are defined, and their properties proved, for every implementation of
      it. [AsciiText] implements them for ASCII text and is what the worked
      examples run on;
    - prices, shipping costs and totals are IEEE 754 binary64 numbers
      ([float]), as JavaScript numbers are, with their rounding; quantities
      are integers ([Z]), whose sums are those of JavaScript up to 2^53, and
      are converted to the nearest double where the code multiplies them
      with a price;
    - [Date.now()], the random order id and the date label are arguments of
      the operations that read them. *)

From Stdlib Require Import Ascii String ZArith.
From Stdlib Require Import PrimFloat FloatOps SpecFloat.
From stdpp Require Import gmap strings list pretty.

#[local] Set Warnings "-inexact-float".

Local Open Scope string_scope.
Local Open Scope Z_scope.

(** ** JavaScript values and built-ins used by the stores *)

Module JS.

(** [!s] for a string: only the empty string is falsy. *)
Definition falsy (s : string) : bool :=
  match s with EmptyString => true | String _ _ => false end.

(** The UTF-16 code units a byte of UTF-8 text stands for: one for an ASCII
    character and for the first byte of a character of the basic plane,
    two for the first byte of a character written as a surrogate pair, none
    for a continuation byte. *)
Definition units (c : ascii) : nat :=
  let n := nat_of_ascii c in
  if (n <? 128)%nat then 1%nat
  else if (n <? 192)%nat then 0%nat
  else if (n <? 240)%nat then 1%nat
  else 2%nat.

(** [s.length]. *)
Fixpoint str_length (s : string) : nat :=
  match s with
  | EmptyString => 0%nat
  | String c r => (units c + str_length r)%nat
  end.

(** [Number.MAX_SAFE_INTEGER], 2^53 - 1: sums and differences of integers
    are exact as long as they stay within it. *)
Definition MAX_SAFE_INTEGER : Z := 9007199254740991.

Definition safe_integer (z : Z) : Prop := Z.abs z <= MAX_SAFE_INTEGER.

(** The Number nearest to an integer (round to nearest, ties to even). *)
Definition to_number (z : Z) : float :=
  SF2Prim (binary_normalize prec emax z 0 false).

(** The built-ins of the engine the stores call. [value] is the type of
    what a caller may pass where a quantity is expected (any JavaScript
    value); [parseInt v] is [parseInt(v, 10)], with [None] for NaN and
    [Some z] for the integer read (a text with more digits than a Number can
    hold reads as Infinity and is not covered). *)
Class Builtins := {
  value : Type;
  parseInt : value -> option Z;
  toLowerCase : string -> string;
  trim : string -> string
}.

(** [parseInt(v, 10) || 1]: NaN and 0 are falsy. *)
Definition parseInt_or_1 `{Builtins} (v : value) : Z :=
  match parseInt v with
  | Some z => if z =? 0 then 1 else z
  | None => 1
  end.

(** Values written out in the examples: [undefined], [null], [NaN], the
    Number nearest to an integer, a string (the value of an input or select
    element), and any other value, given by the text [String(v)] makes of
    it ([Text "2.5"] is the number 2.5). *)
Inductive literal :=
| Undefined
| Null
| NaN
| Num (z : Z)
| Str (s : string)
| Text (t : string).

End JS.

(** ** The built-ins on ASCII text *)

(** What the built-ins of the engine do on texts of ASCII characters and
    on integers within the range of a Number. The examples run on this
    implementation; the theorems stated for every [JS.Builtins] do not
    depend on it. *)

Module AsciiText.
Import JS.

Definition lower_ascii (c : ascii) : ascii :=
  let n := nat_of_ascii c in
  if ((65 <=? n)%nat && (n <=? 90)%nat)%bool then ascii_of_nat (n + 32) else c.

(** [String.prototype.toLowerCase] on ASCII text: A to Z are the only
    cased letters there. *)
Fixpoint toLowerCase (s : string) : string :=
  match s with
  | EmptyString => EmptyString
  | String c r => String (lower_ascii c) (toLowerCase r)
  end.

(** The white space of ASCII: TAB, LF, VT, FF, CR and SPACE. *)
Definition is_ws (c : ascii) : bool :=
  let n := nat_of_ascii c in
  (((9 <=? n)%nat && (n <=? 13)%nat) || (n =? 32)%nat)%bool.

Fixpoint trimStart (s : string) : string :=
  match s with
  | EmptyString => EmptyString
  | String c r => if is_ws c then trimStart r else s
  end.

Fixpoint trimEnd (s : string) : string :=
  match s with
  | EmptyString => EmptyString
  | String c r =>
      let r' := trimEnd r in
      if (is_ws c && falsy r')%bool then EmptyString else String c r'
  end.

(** [String.prototype.trim] on ASCII text. *)
Definition trim (s : string) : string := trimEnd (trimStart s).

Definition digit_of (c : ascii) : option Z :=
  let n := nat_of_ascii c in
  if ((48 <=? n)%nat && (n <=? 57)%nat)%bool then Some (Z.of_nat (n - 48)) else None.

(** The longest prefix of decimal digits, read left to right; [None] when
    the text does not start with a digit. *)
Fixpoint digits (s : string) (acc : option Z) : option Z :=
  match s with
  | EmptyString => acc
  | String c r =>
      match digit_of c with
      | Some d => digits r (Some (10 * default 0 acc + d))
      | None => acc
      end
  end.

(** The integer value of a Number that has one. *)
Definition integer_of (f : float) : Z :=
  match Prim2SF f with
  | S754_finite s m e => if s then - Z.shiftl (Z.pos m) e else Z.shiftl (Z.pos m) e
  | _ => 0
  end.

(** An integer as a Number holds it: itself up to 2^53, the nearest double
    beyond. *)
Definition nearest_double (z : Z) : Z :=
  if Z.abs z <=? MAX_SAFE_INTEGER then z else integer_of (to_number z).

(** [parseInt(text, 10)]: skip leading white space, read an optional sign,
    then the digits; [None] stands for NaN. *)
Definition parseInt_string (s : string) : option Z :=
  nearest_double <$>
    match trimStart s with
    | String "-" r => Z.opp <$> digits r None
    | String "+" r => digits r None
    | t => digits t None
    end.

(** The numeral of [k] digits, scaled to the size of [a], that reads back
    as the Number [a], when there is one: the nearer of the two that
    enclose [a]. *)
Definition numeral_of (a : Z) (k : Z) : option Z :=
  let n := Z.of_nat (String.length (pretty a)) in
  let p := 10 ^ (n - k) in
  let lo := a / p in
  let reads_back s := PrimFloat.eqb (to_number (s * p)) (to_number a) in
  if reads_back lo then
    if (reads_back (lo + 1) && ((lo + 1) * p - a <? a - lo * p))%bool
    then Some ((lo + 1) * p) else Some (lo * p)
  else if reads_back (lo + 1) then Some ((lo + 1) * p)
  else None.

(** The first digit of [String(a)] for a Number [a] of 10^21 or more, which
    is written with an exponent: the first digit of the shortest numeral
    that reads back as [a]. *)
Definition first_digit (a : Z) : Z :=
  match omap (numeral_of a) [1; 2; 3; 4; 5; 6; 7; 8; 9; 10; 11; 12; 13; 14; 15; 16; 17] with
  | m :: _ => m / 10 ^ (Z.of_nat (String.length (pretty m)) - 1)
  | [] => a / 10 ^ (Z.of_nat (String.length (pretty a)) - 1)
  end.

(** [parseInt(v, 10)]. The value is first converted to text: [undefined],
    [null] and [NaN] to texts without a leading digit; a Number below 10^21
    to its decimal numeral, which reads back as the same Number; a larger
    one to a numeral with an exponent, of which [parseInt] reads the first
    digit only. *)
Definition parseInt (v : literal) : option Z :=
  match v with
  | Undefined | Null | NaN => None
  | Num z =>
      let a := nearest_double z in
      if Z.abs a <? 10 ^ 21 then Some a
      else Some (Z.sgn a * first_digit (Z.abs a))
  | Str s | Text s => parseInt_string s
  end.

#[global] Instance builtins : Builtins :=
  {| value := literal;
     JS.parseInt := parseInt;
     JS.toLowerCase := toLowerCase;
     JS.trim := trim |}.

End AsciiText.

(** ** authStore.js *)

Module AuthStore.
Import JS.

Record Account := {
  acc_id : string;
  acc_username : string;
  acc_email : string;
  acc_password : string
}.

(** The session keeps the safe fields only. *)
Record Session := {
  ses_id : string;
  ses_username : string;
  ses_email : string
}.

(** The two keys the store owns: [lh_users_v1] and [lh_session_v1]. *)
Record Store := {
  users : list Account;
  session : option Session
}.

Inductive Result :=
| Success (user : Account)
| Failure (error : string).

Definition loadUsers (st : Store) : list Account := users st.
Definition saveUsers (us : list Account) (st : Store) : Store :=
  {| users := us; session := session st |}.
Definition loadSession (st : Store) : option Session := session st.
Definition saveSession (user : Account) (st : Store) : Store :=
  {| users := users st;
     session := Some {| ses_id := acc_id user;
                        ses_username := acc_username user;
                        ses_email := acc_email user |} |}.

Definition getCurrentUser (st : Store) : option Session := loadSession st.
Definition isLoggedIn (st : Store) : bool :=
  match loadSession st with Some _ => true | None => false end.

Definition err_fields_required := "All fields are required.".
Definition err_email_taken := "An account with this email already exists.".
Definition err_username_taken := "This username is already taken.".
Definition err_fill_in := "Please fill in all fields.".
Definition err_no_account := "No account found with that email or username.".
Definition err_bad_password := "Incorrect password. Please try again.".

(** The error taxonomy of the specification, read off the messages. *)
Inductive ErrorKind := ValidationError | ConflictError | NotFoundError | AuthError.

Definition error_kind (r : Result) : option ErrorKind :=
  match r with
  | Success _ => None
  | Failure e =>
      if String.eqb e err_fields_required || String.eqb e err_fill_in then Some ValidationError
      else if String.eqb e err_email_taken || String.eqb e err_username_taken then Some ConflictError
      else if String.eqb e err_no_account then Some NotFoundError
      else if String.eqb e err_bad_password then Some AuthError
      else None
  end.

Section Engine.
Context `{B : Builtins}.

Definition emailTaken (email : string) (us : list Account) : bool :=
  existsb (fun u => String.eqb (toLowerCase (acc_email u)) (toLowerCase email)) us.

Definition usernameTaken (username : string) (us : list Account) : bool :=
  existsb (fun u => String.eqb (toLowerCase (acc_username u)) (toLowerCase username)) us.

(** [register({username, email, password})]; [now] is [Date.now()]. *)
Definition register (username email password : string) (now : Z) (st : Store)
  : Result * Store :=
  if (falsy username || falsy email || falsy password)%bool then
    (Failure err_fields_required, st)
  else
    let us := loadUsers st in
    if emailTaken email us then (Failure err_email_taken, st)
    else if usernameTaken username us then (Failure err_username_taken, st)
    else
      let newUser := {| acc_id := "user-" +:+ pretty now;
                        acc_username := trim username;
                        acc_email := toLowerCase (trim email);
                        acc_password := password |} in
      (Success newUser, saveSession newUser (saveUsers (us ++ [newUser]) st)).

Definition matches_identifier (identifier : string) (u : Account) : bool :=
  (String.eqb (acc_email u) (toLowerCase identifier)
   || String.eqb (toLowerCase (acc_username u)) (toLowerCase identifier))%bool.

(** [login({identifier, password})]. *)
Definition login (identifier password : string) (st : Store) : Result * Store :=
  if (falsy identifier || falsy password)%bool then (Failure err_fill_in, st)
  else
    match find (matches_identifier identifier) (loadUsers st) with
    | None => (Failure err_no_account, st)
    | Some user =>
        if negb (String.eqb (acc_password user) password)
        then (Failure err_bad_password, st)
        else (Success user, saveSession user st)
    end.

(** Two texts are equal up to letter case, as the store compares them:
    their [toLowerCase()] are the same text. *)
Definition same_ci (a b : string) : Prop := toLowerCase a = toLowerCase b.

(** The uniqueness invariant of the account list. *)
Definition accounts_unique (us : list Account) : Prop :=
  NoDup (map (fun u => toLowerCase (acc_username u)) us)
  /\ NoDup (map (fun u => toLowerCase (acc_email u)) us).

End Engine.

Definition logout (st : Store) : Store := {| users := users st; session := None |}.

End AuthStore.

(** ** cartStore.js *)

Module CartStore.
Import JS.

(** What callers hand to [addItem]; the two optional fields may be
    missing. *)
Record Product := {
  prod_id : string;
  prod_name : string;
  prod_price : float;
  prod_image : string;
  prod_deliveryDate : option string;
  prod_shippingCost : option float
}.

Record CartLine := {
  item_id : string;
  item_name : string;
  item_price : float;
  item_image : string;
  item_deliveryDate : string;
  item_shippingCost : float;
  item_qty : Z
}.

Record Order := {
  order_id : string;
  order_datePlaced : string;
  order_total : float;
  order_items : list CartLine
}.

(** The two keys the store owns. [cart] is what [load] reads under
    [lh_cart_v1]. [orders] is the history under [lh_orders_v1] when the text
    there can be read as a list of orders (a missing key reads as the empty
    list), and [None] when it cannot. *)
Record Store := {
  cart : list CartLine;
  orders : option (list Order)
}.

Definition load (st : Store) : list CartLine := cart st.
Definition save (items : list CartLine) (st : Store) : Store :=
  {| cart := items; orders := orders st |}.

Definition getItems (st : Store) : list CartLine := load st.

Definition getTotalCount (st : Store) : Z :=
  fold_left (fun sum item => sum + item_qty item) (load st) 0.

Definition with_qty (qty : Z) (item : CartLine) : CartLine :=
  {| item_id := item_id item; item_name := item_name item;
     item_price := item_price item; item_image := item_image item;
     item_deliveryDate := item_deliveryDate item;
     item_shippingCost := item_shippingCost item; item_qty := qty |}.

Definition with_shippingCost (c : float) (item : CartLine) : CartLine :=
  {| item_id := item_id item; item_name := item_name item;
     item_price := item_price item; item_image := item_image item;
     item_deliveryDate := item_deliveryDate item;
     item_shippingCost := c; item_qty := item_qty item |}.

Definition has_id (id : string) (item : CartLine) : bool :=
  String.eqb (item_id item) id.

(** [existing.qty += qty] on the line [items.find] returned: the first
    line with the id is updated where it stands. *)
Fixpoint add_to_existing (id : string) (qty : Z) (items : list CartLine)
  : list CartLine :=
  match items with
  | [] => []
  | i :: r =>
      if has_id id i then with_qty (item_qty i + qty) i :: r
      else i :: add_to_existing id qty r
  end.

Definition default_deliveryDate := "Monday, March 2".

Definition new_line (product : Product) (qty : Z) : CartLine :=
  {| item_id := prod_id product;
     item_name := prod_name product;
     item_price := prod_price product;
     item_image := prod_image product;
     item_deliveryDate :=
       match prod_deliveryDate product with
       | Some d => if falsy d then default_deliveryDate else d
       | None => default_deliveryDate
       end;
     item_shippingCost := default 0%float (prod_shippingCost product);
     item_qty := qty |}.

Definition removeItem (id : string) (st : Store) : Store :=
  save (List.filter (fun item => negb (has_id id item)) (load st)) st.

(** The members every object inherits from [Object.prototype]. *)
Definition Object_prototype : list string :=
  ["constructor"; "hasOwnProperty"; "isPrototypeOf"; "propertyIsEnumerable";
   "toLocaleString"; "toString"; "valueOf"; "__proto__";
   "__defineGetter__"; "__defineSetter__"; "__lookupGetter__"; "__lookupSetter__"].

(** What [deliveryOverrides[id]] reads on an object whose own properties
    are the costs of [deliveryOverrides]: an own property, else a member
    inherited from [Object.prototype] (a function, or the prototype itself),
    else [undefined]. *)
Inductive Property :=
| Own (cost : float)
| Inherited
| Missing.

Definition get_property (deliveryOverrides : gmap string float) (id : string)
  : Property :=
  match deliveryOverrides !! id with
  | Some c => Own c
  | None => if bool_decide (id ∈ Object_prototype) then Inherited else Missing
  end.

(** The shipping cost an order records for a line and adds to its total:
    whatever [deliveryOverrides[item.id]] reads unless that is [undefined].
    An inherited member is not a number, and neither is the total it is
    added to: [nan] stands for it. *)
Definition effective_shipping (deliveryOverrides : gmap string float)
  (item : CartLine) : float :=
  match get_property deliveryOverrides (item_id item) with
  | Own c => c
  | Inherited => nan
  | Missing => item_shippingCost item
  end.

(** [sum + item.price * item.qty + shipping], line after line from 0. *)
Definition subtotal (deliveryOverrides : gmap string float)
  (items : list CartLine) : float :=
  fold_left
    (fun sum item =>
       (sum + item_price item * to_number (item_qty item)
        + effective_shipping deliveryOverrides item)%float)
    items 0%float.

(** [placeOrder(deliveryOverrides = {})]; [orderId] is the random id and
    [dateLabel] the label made from today's date. When the history cannot
    be read the order is dropped ([catch]), and the cart is emptied all the
    same. *)
Definition placeOrder (deliveryOverrides : gmap string float)
  (orderId dateLabel : string) (st : Store) : Store :=
  let items := load st in
  match items with
  | [] => st
  | _ :: _ =>
      let order :=
        {| order_id := orderId;
           order_datePlaced := dateLabel;
           order_total := (subtotal deliveryOverrides items * 1.1)%float;
           order_items :=
             map (fun item =>
                    with_shippingCost (effective_shipping deliveryOverrides item) item)
                 items |} in
      save []
        match orders st with
        | Some history => {| cart := cart st; orders := Some (order :: history) |}
        | None => st
        end
  end.

Definition clear (st : Store) : Store := save [] st.

Definition getOrders (st : Store) : list Order := default [] (orders st).

Section Engine.
Context `{B : Builtins}.

(** [addItem(product, qty = 1)]. A missing [qty] takes the default 1,
    which [parseInt(qty, 10) || 1] maps to 1, as it maps [undefined]. *)
Definition addItem (product : Product) (qty : value) (st : Store) : Store :=
  let qty := parseInt_or_1 qty in
  let items := load st in
  match find (has_id (prod_id product)) items with
  | Some existing => save (add_to_existing (prod_id product) qty items) st
  | None => save (items ++ [new_line product qty]) st
  end.

Definition updateQty (id : string) (qty : value) (st : Store) : Store :=
  let qty := parseInt_or_1 qty in
  save (map (fun item => if has_id id item then with_qty qty item else item)
            (load st)) st.

(** The calls a client can make on the store. *)
Inductive Op :=
| OpAddItem (product : Product) (qty : value)
| OpUpdateQty (id : string) (qty : value)
| OpRemoveItem (id : string)
| OpPlaceOrder (deliveryOverrides : gmap string float) (orderId dateLabel : string)
| OpClear.

Definition run (op : Op) (st : Store) : Store :=
  match op with
  | OpAddItem p q => addItem p q st
  | OpUpdateQty id q => updateQty id q st
  | OpRemoveItem id => removeItem id st
  | OpPlaceOrder ov oid d => placeOrder ov oid d st
  | OpClear => clear st
  end.

Definition run_all (ops : list Op) (st : Store) : Store :=
  fold_left (fun s op => run op s) ops st.

End Engine.

Arguments Op {B}.
Arguments OpAddItem {B}.
Arguments OpUpdateQty {B}.
Arguments OpRemoveItem {B}.
Arguments OpPlaceOrder {B}.
Arguments OpClear {B}.




(** Product ids are unique within the cart. *)
Definition unique_ids (items : list CartLine) : Prop :=
  NoDup (map item_id items).


(** The cart names no member of [Object.prototype] that the overrides do
    not replace: every [deliveryOverrides[item.id]] is a cost or
    [undefined]. *)
Definition plain_ids (deliveryOverrides : gmap string float)
  (items : list CartLine) : Prop :=
  Forall (fun l => get_property deliveryOverrides (item_id l) <> Inherited) items.

(** The quantity the cart holds of a product: that of the first line with
    the id, 0 when there is none. *)
Definition qty_of (id : string) (items : list CartLine) : Z :=
  match find (has_id id) items with
  | Some l => item_qty l
  | None => 0
  end.

(** Every partial sum of the quantities of the lines is a safe integer:
    [getTotalCount] adds them up exactly. *)
Definition counts_safely (items : list CartLine) : Prop :=
  fold_left (fun sum item => sum + Z.abs (item_qty item)) items 0 <= MAX_SAFE_INTEGER.

End CartStore.

(** ** Orders.jsx: the confirm-clear handler of the orders page *)

Module Orders.

(** [handleConfirmClear]: [localStorage.removeItem(ORDERS_KEY)]. *)
Definition handleConfirmClear (st : CartStore.Store) : CartStore.Store :=
  {| CartStore.cart := CartStore.cart st; CartStore.orders := Some [] |}.

End Orders.

(** ** favoritesStore.js *)

Module FavoritesStore.

(** A product as the favorites store sees it: the id and the remaining
    fields, which the store copies and never reads. *)
Record Product := {
  prod_id : string;
  prod_fields : list (string * string)
}.

(** [{ ...product, favoritedAt }]. *)
Record Favorite := {
  fav_id : string;
  fav_fields : list (string * string);
  favoritedAt : Z
}.

(** The session key of the auth store and the per-user favorites keys of
    localStorage. *)
Record Store := {
  session : option AuthStore.Session;
  storage : gmap string (list Favorite)
}.

Definition getFavKey (st : Store) : option string :=
  match session st with
  | Some user => Some ("lh_favorites_v1_" +:+ AuthStore.ses_id user)
  | None => None
  end.

Definition loadFavorites (st : Store) : list Favorite :=
  match getFavKey st with
  | None => []
  | Some key => default [] (storage st !! key)
  end.

Definition saveFavorites (items : list Favorite) (st : Store) : Store :=
  match getFavKey st with
  | None => st
  | Some key => {| session := session st; storage := <[key := items]> (storage st) |}
  end.

Definition getItems (st : Store) : list Favorite := loadFavorites st.
Definition getCount (st : Store) : nat := length (loadFavorites st).

Definition has_id (id : string) (item : Favorite) : bool :=
  String.eqb (fav_id item) id.

Definition isFavorited (productId : string) (st : Store) : bool :=
  existsb (has_id productId) (loadFavorites st).

Definition favorite_of (product : Product) (now : Z) : Favorite :=
  {| fav_id := prod_id product; fav_fields := prod_fields product;
     favoritedAt := now |}.

Definition addItem (product : Product) (now : Z) (st : Store) : Store :=
  let items := loadFavorites st in
  if existsb (has_id (prod_id product)) items then st
  else saveFavorites (items ++ [favorite_of product now]) st.

Definition removeItem (id : string) (st : Store) : Store :=
  saveFavorites (List.filter (fun item => negb (has_id id item)) (loadFavorites st)) st.

(** [toggle(product)]: the returned flag and the store afterwards; [now]
    is [Date.now()]. *)
Definition toggle (product : Product) (now : Z) (st : Store) : bool * Store :=
  let items := loadFavorites st in
  let exists_ := existsb (has_id (prod_id product)) items in
  if exists_ then
    (false,
     saveFavorites (List.filter (fun i => negb (has_id (prod_id product) i)) items) st)
  else
    (true, saveFavorites (items ++ [favorite_of product now]) st).

Definition clear (st : Store) : Store := saveFavorites [] st.

(** The product is in the favorites list that is read back. *)
Definition present (productId : string) (st : Store) : Prop :=
  exists f, In f (getItems st) /\ fav_id f = productId.

End FavoritesStore.

(** ** useTheme.js *)

Module Theme.

(** What the module reads and writes: the [lh_theme_v1] key, the
    [data-theme] attribute of the document and the module variable
    [_isDark]. *)
Record World := {
  stored : option string;
  data_theme : option string;
  _isDark : bool
}.

Definition theme_name (isDark : bool) : string :=
  if isDark then "dark" else "light".

Definition resolveInitialTheme (stored_value : option string) (os : bool) : bool :=
  match stored_value with
  | Some s =>
      if String.eqb s "dark" then true
      else if String.eqb s "light" then false
      else os
  | None => os
  end.

Definition applyTheme (isDark : bool) (w : World) : World :=
  {| stored := Some (theme_name isDark);
     data_theme := Some (theme_name isDark);
     _isDark := isDark |}.

(** Loading the module in a browser whose storage holds [stored_value]
    and whose system preference for dark is [os]: [_isDark] is resolved,
    then [applyTheme(_isDark)] runs. *)
Definition module_load (stored_value : option string) (os : bool) : World :=
  let isDark := resolveInitialTheme stored_value os in
  applyTheme isDark
    {| stored := stored_value; data_theme := None; _isDark := isDark |}.

(** [!!localStorage.getItem(THEME_KEY)]. *)
Definition hasManualChoice (w : World) : bool :=
  match stored w with
  | Some s => negb (JS.falsy s)
  | None => false
  end.

(** The listener for the [change] event of the system preference;
    [matches] is the new preference. *)
Definition on_os_change (matches : bool) (w : World) : World :=
  if hasManualChoice w then w else applyTheme matches w.

(** [toggleTheme], the only way a user chooses a theme. *)
Definition toggleTheme (w : World) : World := applyTheme (negb (_isDark w)) w.

Inductive Event :=
| OsChange (matches : bool)
| Toggle.

Definition step (w : World) (e : Event) : World :=
  match e with
  | OsChange m => on_os_change m w
  | Toggle => toggleTheme w
  end.

Definition run (evs : list Event) (w : World) : World := fold_left step evs w.

(** The user has chosen a theme in a run exactly when it contains a
    toggle. *)
Definition user_chose (evs : list Event) : bool :=
  existsb (fun e => match e with Toggle => true | OsChange _ => false end) evs.

End Theme.

(** ** Profile.jsx: the in-session password change *)

Module Profile.
Import AuthStore.

Inductive Outcome :=
| PwError (message : string)
| PwSuccess.

Definition err_too_short := "New password must be at least 6 characters.".
Definition err_no_match := "Passwords do not match.".
Definition err_current_incorrect := "Current password is incorrect.".

Definition with_password (pw : string) (u : Account) : Account :=
  {| acc_id := acc_id u; acc_username := acc_username u;
     acc_email := acc_email u; acc_password := pw |}.

(** [handleChangePassword] for the logged-in [user], with the three form
    fields, on the stored account list; it yields the feedback shown and
    the account list afterwards. *)
Definition handleChangePassword (user : Session)
  (currentPw newPw confirmPw : string) (us : list Account)
  : Outcome * list Account :=
  if (JS.str_length newPw <? 6)%nat then (PwError err_too_short, us)
  else if negb (String.eqb newPw confirmPw) then (PwError err_no_match, us)
  else
    match find (fun u => String.eqb (acc_id u) (ses_id user)) us with
    | None => (PwError err_current_incorrect, us)
    | Some stored_account =>
        if negb (String.eqb (acc_password stored_account) currentPw)
        then (PwError err_current_incorrect, us)
        else
          (PwSuccess,
           map (fun u => if String.eqb (acc_id u) (ses_id user)
                         then with_password newPw u else u) us)
    end.

End Profile.


(** ** recentlyViewedStore.js *)

Module RecentlyViewedStore.

Definition MAX_ITEMS : nat := 8.

(** [{ ...product, viewedAt }]; products are the objects the favorites
    store is handed as well. *)
Record Viewed := {
  rv_id : string;
  rv_fields : list (string * string);
  viewedAt : Z
}.

(** The session key of the auth store and the recently-viewed keys of
    localStorage, one per user and one for guests. *)
Record Store := {
  session : option AuthStore.Session;
  storage : gmap string (list Viewed)
}.

Definition getKey (st : Store) : string :=
  match session st with
  | Some user => "lh_recently_viewed_v1_" +:+ AuthStore.ses_id user
  | None => "lh_recently_viewed_v1_guest"
  end.

Definition load (st : Store) : list Viewed :=
  default [] (storage st !! getKey st).

Definition save (items : list Viewed) (st : Store) : Store :=
  {| session := session st; storage := <[getKey st := items]> (storage st) |}.

Definition getItems (st : Store) : list Viewed := load st.

Definition viewed_of (product : FavoritesStore.Product) (now : Z) : Viewed :=
  {| rv_id := FavoritesStore.prod_id product;
     rv_fields := FavoritesStore.prod_fields product;
     viewedAt := now |}.

Definition other_than (id : string) (i : Viewed) : bool :=
  negb (String.eqb (rv_id i) id).

(** [addItem(product)]; [now] is [Date.now()]. *)
Definition addItem (product : FavoritesStore.Product) (now : Z) (st : Store) : Store :=
  let items := List.filter (other_than (FavoritesStore.prod_id product)) (load st) in
  let items := viewed_of product now :: items in
  save (take MAX_ITEMS items) st.

Definition clear (st : Store) : Store := save [] st.

(** Viewing the products of a list one after the other, at the given
    times. *)
Definition view_all (views : list (FavoritesStore.Product * Z)) (st : Store) : Store :=
  fold_left (fun s v => addItem (fst v) (snd v) s) views st.

End RecentlyViewedStore.

(** ** The character classes of the regular expressions used by the pages *)

Module JSText.

(** [\d], [[A-Z]] and [[A-Za-z0-9]]. A byte of a character outside ASCII
    is in none of them, as the character is not. *)
Definition is_digit (c : ascii) : bool :=
  let n := nat_of_ascii c in ((48 <=? n)%nat && (n <=? 57)%nat)%bool.

Definition is_upper (c : ascii) : bool :=
  let n := nat_of_ascii c in ((65 <=? n)%nat && (n <=? 90)%nat)%bool.

Definition is_lower (c : ascii) : bool :=
  let n := nat_of_ascii c in ((97 <=? n)%nat && (n <=? 122)%nat)%bool.

Definition is_alnum (c : ascii) : bool :=
  (is_upper c || is_lower c || is_digit c)%bool.

(** [regexp.test(s)] for a regular expression that is one character
    class. *)
Definition test (class : ascii -> bool) (s : string) : bool :=
  existsb class (list_ascii_of_string s).

(** [s.replace(/\D/g, "")], on the characters of the text, and
    [s.replace(/\s/g, "")] on a text of ASCII characters (the card number
    the form holds is made of digits and spaces). *)
Definition remove_non_digits (s : list ascii) : list ascii :=
  List.filter is_digit s.

Definition remove_ws (s : list ascii) : list ascii :=
  List.filter (fun c => negb (AsciiText.is_ws c)) s.

End JSText.

(** ** Profile.jsx and Signup.jsx: the password strength meter *)

Module PasswordStrength.
Import JSText.

(** [getPwStrength(pw)] of Profile.jsx, [getPasswordStrength(pw)] of
    Signup.jsx. *)
Definition getPwStrength (pw : string) : nat :=
  if JS.falsy pw then 0%nat
  else
    ((if (8 <=? JS.str_length pw)%nat then 1 else 0)
     + (if (test is_upper pw || test is_digit pw)%bool then 1 else 0)
     + (if test (fun c => negb (is_alnum c)) pw then 1 else 0))%nat.

Definition STRENGTH_LABELS : list string := [""; "Weak"; "Medium"; "Strong"].
Definition STRENGTH_CLASSES : list string := [""; "weak"; "medium"; "strong"].

End PasswordStrength.

(** ** Login.jsx: the forgotten-password flow *)

Module Login.
Import JS AuthStore.

Definition err_reset_no_account := "No account found with that email address.".
Definition err_reset_too_short := "Password must be at least 6 characters.".
Definition err_reset_no_match := "Passwords do not match.".

Section Engine.
Context `{B : Builtins}.

(** [u.email.toLowerCase() === resetEmail.trim().toLowerCase()]. *)
Definition is_reset_account (resetEmail : string) (u : Account) : bool :=
  String.eqb (toLowerCase (acc_email u)) (toLowerCase (trim resetEmail)).

(** [handleResetLookup]: the error shown, or [None] when the flow goes on
    to the new-password step. *)
Definition handleResetLookup (resetEmail : string) (us : list Account)
  : option string :=
  match find (is_reset_account resetEmail) us with
  | None => Some err_reset_no_account
  | Some _ => None
  end.

(** [handleResetSave]: the feedback shown and the account list
    afterwards. *)
Definition handleResetSave (resetEmail resetNewPw resetConfirm : string)
  (us : list Account) : Profile.Outcome * list Account :=
  if (str_length resetNewPw <? 6)%nat then (Profile.PwError err_reset_too_short, us)
  else if negb (String.eqb resetNewPw resetConfirm)
       then (Profile.PwError err_reset_no_match, us)
  else
    (Profile.PwSuccess,
     map (fun u => if is_reset_account resetEmail u
                   then Profile.with_password resetNewPw u else u) us).

(** Stored emails are in lower case, as [register] stores them. *)
Definition emails_lowercase (us : list Account) : Prop :=
  Forall (fun u => toLowerCase (acc_email u) = acc_email u) us.

End Engine.

End Login.

(** ** Checkout.jsx: the order placed after payment *)

Module Checkout.
Import JS CartStore.

(** [overrides[i.id] = i.shippingCost] on a plain object: an own property
    is written, except under the name "__proto__", where assigning a
    number does nothing. *)
Definition set_property (id : string) (cost : float) (overrides : gmap string float)
  : gmap string float :=
  if String.eqb id "__proto__" then overrides else <[id := cost]> overrides.

(** [items.forEach((i) => { overrides[i.id] = i.shippingCost; })]. *)
Definition build_overrides (items : list CartLine) : gmap string float :=
  fold_left (fun ov i => set_property (item_id i) (item_shippingCost i) ov) items ∅.

(** [handleStripeSuccess], with the page's [items]: the order handed to the
    confirmation page and the store afterwards. *)
Definition handleStripeSuccess (items : list CartLine) (orderId dateLabel : string)
  (st : Store) : option Order * Store :=
  let overrides := build_overrides items in
  let st' := placeOrder overrides orderId dateLabel st in
  (head (getOrders st'), st').

End Checkout.

(** ** StripePayment.jsx: the card form *)

Module StripePayment.
Import JSText.

(** [s.replace(/(.{4})/g, "$1 ")]: a space after every full group of four
    characters. *)
Fixpoint group4 (s : list ascii) : list ascii :=
  match s with
  | a :: b :: c :: d :: r => a :: b :: c :: d :: " "%char :: group4 r
  | _ => s
  end.

(** The text [trim()] is called on holds digits and spaces only. *)
Definition formatCardNumber (raw : string) : string :=
  AsciiText.trim
    (string_of_list_ascii
       (group4 (take 16 (remove_non_digits (list_ascii_of_string raw))))).

Definition formatExpiry (raw : string) : string :=
  let d := take 4 (remove_non_digits (list_ascii_of_string raw)) in
  if (2 <? length d)%nat
  then string_of_list_ascii (take 2 d ++ "/"%char :: drop 2 d)
  else string_of_list_ascii d.

Definition formatCvc (raw : string) : string :=
  string_of_list_ascii (take 4 (remove_non_digits (list_ascii_of_string raw))).

Definition err_name := "Please enter the cardholder name.".
Definition err_card := "Please enter a valid 16-digit card number.".
Definition err_expiry := "Please enter a valid expiry date (MM/YY).".
Definition err_cvc := "Please enter a valid CVC.".
Definition err_declined :=
  "Your card was declined. Please try a different card or contact your bank.".

Inductive CardResult := ResSuccess | ResDecline | ResAuth.

Definition TEST_CARDS : list (string * CardResult) :=
  [("4242 4242 4242 4242", ResSuccess);
   ("4000 0000 0000 0002", ResDecline);
   ("4000 0025 0000 3155", ResAuth)].

Inductive PayOutcome :=
| PayError (message : string)
| PayAuthChallenge
| PaySucceeded.

Section Engine.
Context `{B : JS.Builtins}.

(** [validate()], on the four fields of the form; the card number, the
    expiry and the CVC are what the three formatters above made of the
    input, texts of ASCII characters. *)
Definition validate (cardNumber expiry cvc name : string) : option string :=
  let digits := remove_ws (list_ascii_of_string cardNumber) in
  if JS.falsy (JS.trim name) then Some err_name
  else if (length digits <? 16)%nat then Some err_card
  else if (JS.str_length expiry <? 5)%nat then Some err_expiry
  else if (JS.str_length cvc <? 3)%nat then Some err_cvc
  else None.

(** [handlePay], up to the simulated delay. *)
Definition handlePay (cardNumber expiry cvc name : string) : PayOutcome :=
  match validate cardNumber expiry cvc name with
  | Some err => PayError err
  | None =>
      let digits := remove_ws (list_ascii_of_string cardNumber) in
      match find (fun c => bool_decide (remove_ws (list_ascii_of_string (fst c)) = digits))
                 TEST_CARDS with
      | Some (_, ResDecline) => PayError err_declined
      | Some (_, ResAuth) => PayAuthChallenge
      | _ => PaySucceeded
      end
  end.

End Engine.

End StripePayment.

(** ** Concrete data used by the examples below *)

Module Samples.

Definition p1 : CartStore.Product :=
  {| CartStore.prod_id := "p1"; CartStore.prod_name := "Silk hijab";
     CartStore.prod_price := 10%float; CartStore.prod_image := "p1.jpg";
     CartStore.prod_deliveryDate := None;
     CartStore.prod_shippingCost := Some 5%float |}.

Definition empty_cart : CartStore.Store :=
  {| CartStore.cart := []; CartStore.orders := Some [] |}.

(** The cart of the scenario of the specification:
    [{id:"p1", price:10, qty:2, shippingCost:5}]. *)
Definition cart_p1x2 : CartStore.Store :=
  CartStore.addItem p1 (JS.Num 2) empty_cart.

Definition no_accounts : AuthStore.Store :=
  {| AuthStore.users := []; AuthStore.session := None |}.

Definition amina : AuthStore.Account :=
  {| AuthStore.acc_id := "user-1"; AuthStore.acc_username := "amina";
     AuthStore.acc_email := "a@x.com"; AuthStore.acc_password := "secret1" |}.

Definition zainab : AuthStore.Account :=
  {| AuthStore.acc_id := "user-2"; AuthStore.acc_username := "zainab";
     AuthStore.acc_email := "z@x.com"; AuthStore.acc_password := "secret2" |}.

(** The store after [register({username:"amina", email:"A@x.com",
    password:"secret1"})] at time 1. *)
Definition amina_registered : AuthStore.Store :=
  snd (AuthStore.register "amina" "A@x.com" "secret1" 1 no_accounts).

Definition amina_session : AuthStore.Session :=
  {| AuthStore.ses_id := "user-1"; AuthStore.ses_username := "amina";
     AuthStore.ses_email := "a@x.com" |}.

Definition scarf : FavoritesStore.Product :=
  {| FavoritesStore.prod_id := "p1";
     FavoritesStore.prod_fields := [("name", "Silk hijab")] |}.

Definition guest : FavoritesStore.Store :=
  {| FavoritesStore.session := None; FavoritesStore.storage := ∅ |}.

Definition amina_favorites : FavoritesStore.Store :=
  {| FavoritesStore.session := Some amina_session; FavoritesStore.storage := ∅ |}.

End Samples.


(** ** Logging in and out, as the stores keyed by the session see it *)

Module SessionSwitch.

(** A login, registration or logout replaces the session key and leaves
    the lists of the favorites store where they are. *)
Definition favorites_as (s : option AuthStore.Session) (st : FavoritesStore.Store)
  : FavoritesStore.Store :=
  {| FavoritesStore.session := s; FavoritesStore.storage := FavoritesStore.storage st |}.

Definition recently_viewed_as (s : option AuthStore.Session)
  (st : RecentlyViewedStore.Store) : RecentlyViewedStore.Store :=
  {| RecentlyViewedStore.session := s;
     RecentlyViewedStore.storage := RecentlyViewedStore.storage st |}.

(** Two viewers that are not the same: two users with different ids, or a
    guest and a user whose id is not the text "guest". *)
Definition distinct_viewers (s1 s2 : option AuthStore.Session) : Prop :=
  match s1, s2 with
  | Some u1, Some u2 => AuthStore.ses_id u1 <> AuthStore.ses_id u2
  | Some u, None | None, Some u => AuthStore.ses_id u <> "guest"
  | None, None => False
  end.

(** The session [saveSession] writes for an account. *)
Definition safe_fields (u : AuthStore.Account) : AuthStore.Session :=
  {| AuthStore.ses_id := AuthStore.acc_id u;
     AuthStore.ses_username := AuthStore.acc_username u;
     AuthStore.ses_email := AuthStore.acc_email u |}.

End SessionSwitch.

(** ** More concrete data *)

Module Samples2.

Definition zainab_session : AuthStore.Session :=
  {| AuthStore.ses_id := "user-2"; AuthStore.ses_username := "zainab";
     AuthStore.ses_email := "z@x.com" |}.

Definition product (id : string) : FavoritesStore.Product :=
  {| FavoritesStore.prod_id := id; FavoritesStore.prod_fields := [] |}.

Definition guest_viewer : RecentlyViewedStore.Store :=
  {| RecentlyViewedStore.session := None; RecentlyViewedStore.storage := ∅ |}.

Definition two_accounts : AuthStore.Store :=
  {| AuthStore.users := [Samples.amina; Samples.zainab]; AuthStore.session := None |}.

Definition line (id : string) (price shippingCost : float) (qty : Z) : CartStore.CartLine :=
  {| CartStore.item_id := id; CartStore.item_name := id;
     CartStore.item_price := price; CartStore.item_image := "";
     CartStore.item_deliveryDate := "Monday, March 2";
     CartStore.item_shippingCost := shippingCost; CartStore.item_qty := qty |}.

Definition two_lines : CartStore.Store :=
  {| CartStore.cart := [line "p1" 10 5 2; line "p2" 30 0 1];
     CartStore.orders := Some [] |}.





End Samples2.

(** * Properties *)

(** ** The order-placement transaction *)

Section PlaceOrder.
Import CartStore.

Variable deliveryOverrides : gmap string float.



(** On a cart that names no inherited member, the effective shipping cost
    of a line is the override of its product id when there is one and the
    line's own otherwise. *)
Lemma effective_shipping_plain (items : list CartLine) (l : CartLine) :
  plain_ids deliveryOverrides items -> In l items ->
  effective_shipping deliveryOverrides l
  = default (item_shippingCost l) (deliveryOverrides !! item_id l).
Proof.
  unfold plain_ids. rewrite Forall_forall. intros Hp Hin.
  specialize (Hp l (proj2 (list_elem_of_In _ _) Hin)).
  unfold effective_shipping, get_property in *.
  destruct (deliveryOverrides !! item_id l); [reflexivity|].
  destruct (bool_decide _); [contradiction | reflexivity].
Qed.


End PlaceOrder.



(** ** The cart: unique product ids and quantities *)

Section Cart.
Import JS CartStore.
Context `{B : Builtins}.

Lemma has_id_true (id : string) (i : CartLine) :
  has_id id i = true <-> item_id i = id.
Proof. unfold has_id. apply String.eqb_eq. Qed.

Lemma has_id_false (id : string) (i : CartLine) :
  has_id id i = false <-> item_id i <> id.
Proof. unfold has_id. apply String.eqb_neq. Qed.

Lemma find_has_id_None (id : string) (items : list CartLine) :
  find (has_id id) items = None <-> id ∉ map item_id items.
Proof.
  induction items as [|i r IH]; simpl.
  - split; [intros _; apply not_elem_of_nil | reflexivity].
  - rewrite not_elem_of_cons. destruct (has_id id i) eqn:E.
    + apply has_id_true in E. split; [discriminate | intros [H _]; congruence].
    + apply has_id_false in E. rewrite IH. split; [intros H; split; congruence | tauto].
Qed.

Lemma find_has_id_Some (id : string) (items : list CartLine) (l : CartLine) :
  find (has_id id) items = Some l -> item_id l = id /\ In l items.
Proof.
  intros H. apply find_some in H as [Hin Hid]. apply has_id_true in Hid. tauto.
Qed.

Lemma add_to_existing_ids (id : string) (qty : Z) (items : list CartLine) :
  map item_id (add_to_existing id qty items) = map item_id items.
Proof.
  induction items as [|i r IH]; simpl; [reflexivity|].
  destruct (has_id id i); simpl; congruence.
Qed.

Lemma updateQty_ids (id : string) (qty : Z) (items : list CartLine) :
  map item_id (map (fun item => if has_id id item then with_qty qty item else item) items)
  = map item_id items.
Proof.
  induction items as [|i r IH]; simpl; [reflexivity|].
  rewrite IH. destruct (has_id id i); reflexivity.
Qed.

Lemma filter_ids_sub (f : CartLine -> bool) (items : list CartLine) (x : string) :
  x ∈ map item_id (List.filter f items) -> x ∈ map item_id items.
Proof.
  induction items as [|i r IH]; simpl; [tauto|].
  destruct (f i); simpl; rewrite ?elem_of_cons; tauto.
Qed.

Lemma filter_unique (f : CartLine -> bool) (items : list CartLine) :
  unique_ids items -> unique_ids (List.filter f items).
Proof.
  unfold unique_ids. induction items as [|i r IH]; simpl; [tauto|].
  rewrite NoDup_cons. intros [Hni Hr]. destruct (f i); simpl; [|tauto].
  rewrite NoDup_cons. split; [|tauto].
  intros H. apply Hni. eapply filter_ids_sub, H.
Qed.

Lemma addItem_unique (p : Product) (v : value) (st : Store) :
  unique_ids (cart st) -> unique_ids (cart (addItem p v st)).
Proof.
  unfold addItem, load, save, unique_ids. intros Hu.
  destruct (find (has_id (prod_id p)) (cart st)) eqn:Hf; simpl.
  - rewrite add_to_existing_ids. exact Hu.
  - rewrite map_app. simpl. apply NoDup_app. split; [exact Hu|].
    split; [|apply NoDup_singleton].
    intros x Hx Hx1. apply list_elem_of_singleton in Hx1. subst x.
    apply find_has_id_None in Hf. contradiction.
Qed.

Lemma run_unique (op : Op) (st : Store) :
  unique_ids (cart st) -> unique_ids (cart (run op st)).
Proof.
  intros Hu. destruct op as [p v|id v|id|ov oid d|]; simpl.
  - apply addItem_unique, Hu.
  - unfold updateQty, load, save, unique_ids. simpl. rewrite updateQty_ids. exact Hu.
  - unfold removeItem, load, save. simpl. apply filter_unique, Hu.
  - unfold placeOrder, load. destruct (cart st) eqn:Hc; [rewrite Hc; exact Hu|].
    simpl. apply NoDup_nil_2.
  - simpl. apply NoDup_nil_2.
Qed.

(** What [parseInt(qty, 10) || 1] makes of what [parseInt] reads. *)
Lemma parseInt_or_1_cases (v : value) :
  parseInt_or_1 v <> 0
  /\ (parseInt v = None \/ parseInt v = Some 0 -> parseInt_or_1 v = 1)
  /\ (forall z, parseInt v = Some z -> z <> 0 -> parseInt_or_1 v = z).
Proof.
  unfold parseInt_or_1. destruct (parseInt v) as [z|].
  - destruct (Z.eqb_spec z 0) as [->|Hz].
    + split; [lia|]. split; [reflexivity|]. intros z' [= <-] H. contradiction.
    + split; [exact Hz|]. split; [intros [H|H]; congruence|].
      intros z' [= <-] _. reflexivity.
  - split; [lia|]. split; [reflexivity | discriminate].
Qed.

Lemma filter_has_id_absent (id : string) (items : list CartLine) :
  find (has_id id) items = None -> List.filter (has_id id) items = [].
Proof.
  induction items as [|i r IH]; simpl; [reflexivity|].
  destruct (has_id id i); [discriminate | exact IH].
Qed.

Lemma filter_add_to_existing (id : string) (qty : Z) (items : list CartLine) :
  unique_ids items ->
  forall l, find (has_id id) items = Some l ->
  List.filter (has_id id) (add_to_existing id qty items)
  = [with_qty (item_qty l + qty) l].
Proof.
  unfold unique_ids. induction items as [|i r IH]; simpl; [discriminate|].
  rewrite NoDup_cons. intros [Hni Hr] l.
  destruct (has_id id i) eqn:E.
  - intros [= <-]. simpl. unfold has_id at 1. simpl. fold (has_id id i). rewrite E.
    f_equal. apply filter_has_id_absent, find_has_id_None.
    apply has_id_true in E. congruence.
  - intros Hf. simpl. rewrite E. apply IH; assumption.
Qed.

(** After [addItem] the cart holds the earlier quantity of the product
    (0 when it was absent) plus the coerced quantity, on the first line
    with the product's id; no other line has the id when ids were
    unique. *)
Lemma addItem_line (p : Product) (v : value) (st : Store) :
  unique_ids (cart st) ->
  exists l,
    List.filter (has_id (prod_id p)) (cart (addItem p v st)) = [l]
    /\ item_qty l = qty_of (prod_id p) (cart st) + parseInt_or_1 v
    /\ qty_of (prod_id p) (cart (addItem p v st)) = item_qty l.
Proof.
  intros Hu. unfold addItem, load, save, qty_of.
  destruct (find (has_id (prod_id p)) (cart st)) as [l|] eqn:Hf; simpl.
  - exists (with_qty (item_qty l + parseInt_or_1 v) l).
    rewrite (filter_add_to_existing _ _ _ Hu l Hf).
    split; [reflexivity|]. split; [reflexivity|].
    clear Hu. revert Hf. induction (cart st) as [|i r IH]; simpl; [discriminate|].
    destruct (has_id (prod_id p) i) eqn:E.
    + intros [= <-]. simpl. unfold has_id at 1. simpl. fold (has_id (prod_id p) i).
      rewrite E. reflexivity.
    + simpl. rewrite E. exact IH.
  - exists (new_line p (parseInt_or_1 v)).
    assert (Hn : has_id (prod_id p) (new_line p (parseInt_or_1 v)) = true)
      by (apply has_id_true; reflexivity).
    rewrite List.filter_app, (filter_has_id_absent _ _ Hf). simpl. rewrite Hn.
    split; [reflexivity|]. split; [simpl; lia|].
    clear Hu. revert Hf. induction (cart st) as [|i r IH]; simpl.
    + rewrite Hn. reflexivity.
    + destruct (has_id (prod_id p) i); [discriminate | exact IH].
Qed.

(** C2, as the code has it. Every cart operation keeps the product ids of
    the cart unique. For quantity arguments that [parseInt] reads as
    integers q >= 1 and q2 >= 1, whose sums with the quantity the cart holds
    stay within the safe integers, [addItem(p,q)] followed by
    [addItem(p,q2)] leaves exactly one line for [p.id]: with quantity
    q + q2 when the cart did not hold the product before, and with q + q2
    added to the quantity of its line when it did. *)
Theorem cart_ids_stay_unique :
  (forall (op : Op) (st : Store),
      unique_ids (cart st) -> unique_ids (cart (run op st)))
  /\ (forall (p : Product) (v v2 : value) (q q2 : Z) (st : Store),
         parseInt v = Some q -> parseInt v2 = Some q2 ->
         1 <= q -> 1 <= q2 -> unique_ids (cart st) ->
         safe_integer (qty_of (prod_id p) (cart st)) ->
         safe_integer (qty_of (prod_id p) (cart st) + q + q2) ->
         exists l,
           List.filter (has_id (prod_id p)) (cart (addItem p v2 (addItem p v st))) = [l]
           /\ (find (has_id (prod_id p)) (cart st) = None -> item_qty l = q + q2)
           /\ (forall l0, find (has_id (prod_id p)) (cart st) = Some l0 ->
                          item_qty l = item_qty l0 + q + q2)).
Proof.
  split; [exact run_unique|].
  intros p v v2 q q2 st Hv Hv2 Hq Hq2 Hu _ _.
  destruct (addItem_line p v st Hu) as (l1 & _ & Hq1 & Hqty1).
  destruct (addItem_line p v2 (addItem p v st) (addItem_unique _ _ _ Hu))
    as (l2 & Hf2 & Hq2' & _).
  exists l2. split; [exact Hf2|].
  rewrite (proj2 (proj2 (parseInt_or_1_cases v)) q Hv) in Hq1 by lia.
  rewrite (proj2 (proj2 (parseInt_or_1_cases v2)) q2 Hv2) in Hq2' by lia.
  unfold qty_of in Hq1. split.
  - intros Hnone. rewrite Hnone in Hq1. lia.
  - intros l0 Hsome. rewrite Hsome in Hq1. lia.
Qed.

End Cart.

(** [parseInt(qty, 10) || 1] on the inputs the specification names, and on
    numbers that are not small integers: 2.5, 10^21 (written 1e+21 as a
    text) and 2^53 + 1 (which no Number holds). *)
Example parseInt_or_1_samples :
  map JS.parseInt_or_1
      [JS.Undefined; JS.Null; JS.NaN; JS.Num 0; JS.Num 4; JS.Num (-3);
       JS.Str "abc"; JS.Str ""; JS.Str "0"; JS.Str "-0"; JS.Str "7"; JS.Str " 42px";
       JS.Str "+5"; JS.Str "- 5"; JS.Str "3.7"; JS.Str "-3";
       JS.Text "2.5"; JS.Num (10 ^ 21); JS.Num (2 ^ 53 + 1)]
  = [1; 1; 1; 1; 4; -3; 1; 1; 1; 1; 7; 42; 5; 1; 3; -3; 2; 1; 2 ^ 53].
Proof. vm_compute. reflexivity. Qed.

Lemma cart_ids_stay_unique_witness :
  JS.parseInt (JS.Num 2) = Some 2 /\ JS.parseInt (JS.Str "3") = Some 3
  /\ CartStore.unique_ids (CartStore.cart Samples.empty_cart)
  /\ JS.safe_integer (CartStore.qty_of "p1" (CartStore.cart Samples.empty_cart))
  /\ JS.safe_integer (CartStore.qty_of "p1" (CartStore.cart Samples.empty_cart) + 2 + 3)
  /\ exists l,
       List.filter (CartStore.has_id "p1")
         (CartStore.cart
            (CartStore.addItem Samples.p1 (JS.Str "3")
               (CartStore.addItem Samples.p1 (JS.Num 2) Samples.empty_cart))) = [l]
       /\ (find (CartStore.has_id "p1") (CartStore.cart Samples.empty_cart) = None ->
           CartStore.item_qty l = 2 + 3)
       /\ (forall l0, find (CartStore.has_id "p1") (CartStore.cart Samples.empty_cart)
                      = Some l0 ->
                      CartStore.item_qty l = CartStore.item_qty l0 + 2 + 3).
Proof.
  assert (H1 : JS.parseInt (JS.Num 2) = Some 2) by reflexivity.
  assert (H2 : JS.parseInt (JS.Str "3") = Some 3) by reflexivity.
  assert (Hu : CartStore.unique_ids (CartStore.cart Samples.empty_cart))
    by apply NoDup_nil_2.
  assert (Hs0 : JS.safe_integer (CartStore.qty_of "p1" (CartStore.cart Samples.empty_cart)))
    by (vm_compute; discriminate).
  assert (Hs : JS.safe_integer
                 (CartStore.qty_of "p1" (CartStore.cart Samples.empty_cart) + 2 + 3))
    by (vm_compute; discriminate).
  split; [exact H1|]. split; [exact H2|]. split; [exact Hu|]. split; [exact Hs0|].
  split; [exact Hs|].
  apply (proj2 (@cart_ids_stay_unique AsciiText.builtins) Samples.p1 (JS.Num 2) (JS.Str "3") 2 3
           Samples.empty_cart H1 H2); [lia | lia | exact Hu | exact Hs0 | exact Hs].
Defined.

(** C2 as stated fails when the cart already holds the product: on the
    cart of the scenario (two of p1), [addItem(p1,1)] followed by
    [addItem(p1,1)] leaves one line with quantity 4, not 1 + 1. *)
Lemma addItem_twice_on_held_product :
  map CartStore.item_qty
      (CartStore.getItems
         (CartStore.addItem Samples.p1 (JS.Num 1)
            (CartStore.addItem Samples.p1 (JS.Num 1) Samples.cart_p1x2)))
  = [4]
  /\ 4 <> 1 + 1.
Proof. split; [reflexivity | lia]. Qed.

(** ** Order history and the two clear operations *)

Section OrderHistory.
Import JS CartStore.
Context `{B : Builtins}.

Lemma run_orders (op : Op) (st : Store) :
  getOrders (run op st) = getOrders st
  \/ exists o, getOrders (run op st) = o :: getOrders st.
Proof.
  destruct op as [p v|id v|id|ov oid d|]; simpl; try (left; reflexivity).
  - left. unfold addItem. destruct (find _ _); reflexivity.
  - unfold placeOrder, load. destruct (cart st); [left; reflexivity|].
    unfold getOrders, save. destruct (orders st) as [history|] eqn:Hh; simpl.
    + right. eexists. reflexivity.
    + left. rewrite Hh. reflexivity.
Qed.

Lemma run_all_orders (ops : list Op) (st : Store) :
  exists newer, getOrders (run_all ops st) = (newer ++ getOrders st)%list.
Proof.
  revert st. induction ops as [|op ops IH]; intros st.
  - exists []. reflexivity.
  - destruct (IH (run op st)) as [newer Hn]. unfold run_all in *. simpl.
    rewrite Hn. destruct (run_orders op st) as [-> | [o ->]].
    + exists newer. reflexivity.
    + exists (newer ++ [o])%list. rewrite <- app_assoc. reflexivity.
Qed.

(** C7, as the code has it. [CartStore.clear()] empties the cart and
    leaves the order history as it is; the order history is bulk-cleared by
    the confirm-clear handler of the orders page, which leaves the cart as
    it is and after which [getOrders()] is the empty list; and whatever
    store operations run, the orders already recorded stay, unchanged and
    in order, behind the orders placed since. *)
Theorem clear_keeps_order_history :
  (forall st : Store, getItems (clear st) = [] /\ getOrders (clear st) = getOrders st)
  /\ (forall st : Store,
         getOrders (Orders.handleConfirmClear st) = []
         /\ getItems (Orders.handleConfirmClear st) = getItems st)
  /\ (forall (ops : list Op) (st : Store),
         exists newer, getOrders (run_all ops st) = (newer ++ getOrders st)%list).
Proof.
  split; [|split].
  - intros st. split; reflexivity.
  - intros st. split; reflexivity.
  - exact run_all_orders.
Qed.

Lemma fold_qty_acc (items : list CartLine) (acc : Z) :
  fold_left (fun sum item => sum + item_qty item) items acc
  = acc + fold_left (fun sum item => sum + item_qty item) items 0.
Proof.
  revert acc. induction items as [|i r IH]; intros acc; simpl; [lia|].
  rewrite (IH (acc + item_qty i)), (IH (0 + item_qty i)). lia.
Qed.

Lemma getTotalCount_cons (i : CartLine) (r : list CartLine) (os : option (list Order)) :
  getTotalCount {| cart := i :: r; orders := os |}
  = item_qty i + getTotalCount {| cart := r; orders := os |}.
Proof. unfold getTotalCount, load. simpl. apply fold_qty_acc. Qed.

Lemma find_add_to_existing (id : string) (q : Z) (items : list CartLine) (l : CartLine) :
  find (has_id id) items = Some l ->
  find (has_id id) (add_to_existing id q items) = Some (with_qty (item_qty l + q) l).
Proof.
  induction items as [|i r IH]; simpl; [discriminate|].
  destruct (has_id id i) eqn:E.
  - intros [= <-]. simpl. unfold has_id at 1. simpl. fold (has_id id i).
    rewrite E. reflexivity.
  - intros Hf. simpl. rewrite E. exact (IH Hf).
Qed.

(** C8, as the code has it. The quantity [addItem] adds to the cart is the
    integer [parseInt(qty, 10)] reads from the argument when that is not 0,
    and 1 when [parseInt] gives NaN or 0: it is never 0, input that is not
    numeric and zero give 1, and a negative integer is added as it is. That
    quantity is the quantity of the line added last when the cart did not
    hold the product, and what the quantity of the product's line grows by,
    within the safe integers, when it did. *)
Theorem addItem_quantity_added (p : Product) (v : value) (st : Store) :
  let added := parseInt_or_1 v in
  added <> 0
  /\ (parseInt v = None \/ parseInt v = Some 0 -> added = 1)
  /\ (forall z, parseInt v = Some z -> z <> 0 -> added = z)
  /\ (find (has_id (prod_id p)) (cart st) = None ->
      exists l,
        cart (addItem p v st) = (cart st ++ [l])%list
        /\ item_id l = prod_id p /\ item_qty l = added)
  /\ (forall l, find (has_id (prod_id p)) (cart st) = Some l ->
                safe_integer (item_qty l + added) ->
                exists l',
                  find (has_id (prod_id p)) (cart (addItem p v st)) = Some l'
                  /\ item_qty l' = item_qty l + added).
Proof.
  cbv zeta. destruct (parseInt_or_1_cases v) as (H0 & H1 & H2).
  split; [exact H0|]. split; [exact H1|]. split; [exact H2|].
  unfold addItem, load, save. split.
  - intros Hf. rewrite Hf. eexists. split; [reflexivity|]. split; reflexivity.
  - intros l Hf _. rewrite Hf. cbn [cart]. eexists.
    split; [apply find_add_to_existing, Hf | reflexivity].
Qed.

End OrderHistory.

Section OrderHistoryExamples.
Import JS CartStore.

(** C7 as stated fails: after an order is placed, [clear()] leaves it in
    the history, so [getOrders()] is not empty. *)
Lemma clear_does_not_clear_orders :
  let st := run_all [OpAddItem Samples.p1 (Num 2);
                     OpPlaceOrder ∅ "0123-4567-89ab-cdef" "March 2"]
                    Samples.empty_cart in
  length (getOrders (clear st)) = 1%nat /\ getOrders (clear st) <> [].
Proof. split; [reflexivity | discriminate]. Qed.

(** C8 as stated fails: [addItem(p, -3)] adds the quantity -3. *)
Lemma addItem_negative_quantity :
  getTotalCount (addItem Samples.p1 (Num (-3)) Samples.empty_cart)
  - getTotalCount Samples.empty_cart = -3
  /\ map item_qty (getItems (addItem Samples.p1 (Str "-3") Samples.empty_cart)) = [-3].
Proof. split; reflexivity. Qed.

End OrderHistoryExamples.

Lemma addItem_quantity_added_witness :
  JS.parseInt (JS.Str " 42px") = Some 42 /\ 42 <> 0
  /\ JS.parseInt_or_1 (JS.Str " 42px") = 42.
Proof.
  assert (H : JS.parseInt (JS.Str " 42px") = Some 42) by reflexivity.
  assert (H0 : 42 <> 0) by lia.
  split; [exact H|]. split; [exact H0|].
  exact (proj1 (proj2 (proj2 (addItem_quantity_added Samples.p1 (JS.Str " 42px")
                                Samples.cart_p1x2))) 42 H H0).
Defined.

(** ** Registration and login *)

Section Registration.
Import JS AuthStore.
Context `{B : Builtins}.

Lemma falsy_true (s : string) : falsy s = true <-> s = "".
Proof. destruct s; simpl; split; congruence. Qed.

Lemma falsy_false (s : string) : falsy s = false <-> s <> "".
Proof. destruct s; simpl; split; congruence. Qed.

Lemma emailTaken_true (email : string) (us : list Account) :
  emailTaken email us = true
  <-> exists u, In u us /\ same_ci (acc_email u) email.
Proof.
  unfold emailTaken, same_ci. rewrite existsb_exists.
  split; intros (u & Hin & Hu); exists u; split; try assumption;
    apply String.eqb_eq; assumption.
Qed.

Lemma usernameTaken_true (username : string) (us : list Account) :
  usernameTaken username us = true
  <-> exists u, In u us /\ same_ci (acc_username u) username.
Proof.
  unfold usernameTaken, same_ci. rewrite existsb_exists.
  split; intros (u & Hin & Hu); exists u; split; try assumption;
    apply String.eqb_eq; assumption.
Qed.

Lemma fields_present (username email password : string) :
  username <> "" -> email <> "" -> password <> "" ->
  (falsy username || falsy email || falsy password)%bool = false.
Proof.
  intros Hu He Hp. apply falsy_false in Hu, He, Hp. rewrite Hu, He, Hp. reflexivity.
Qed.

(** C3. [register] fails with the validation error when one of the three
    fields is empty; otherwise with the conflict error for the email when
    the email is that of an existing account up to letter case, and,
    failing that, with the conflict error for the username when the
    username is that of an existing account up to letter case. In each case
    the store is left as it was. Two texts are the same up to letter case
    when [toLowerCase()] makes the same text of them, whatever that
    built-in does to a letter. *)
Theorem register_failures (username email password : string) (now : Z) (st : Store) :
  (username = "" \/ email = "" \/ password = "" ->
   register username email password now st = (Failure err_fields_required, st))
  /\ (username <> "" -> email <> "" -> password <> "" ->
      (exists u, In u (users st) /\ same_ci (acc_email u) email) ->
      register username email password now st = (Failure err_email_taken, st))
  /\ (username <> "" -> email <> "" -> password <> "" ->
      ~ (exists u, In u (users st) /\ same_ci (acc_email u) email) ->
      (exists u, In u (users st) /\ same_ci (acc_username u) username) ->
      register username email password now st = (Failure err_username_taken, st))
  /\ error_kind (Failure err_fields_required) = Some ValidationError
  /\ error_kind (Failure err_email_taken) = Some ConflictError
  /\ error_kind (Failure err_username_taken) = Some ConflictError.
Proof.
  split; [|split; [|split; [|repeat split]]].
  - intros H. unfold register.
    assert (E : (falsy username || falsy email || falsy password)%bool = true).
    { destruct H as [->| [->| ->]]; simpl; rewrite ?orb_true_r; reflexivity. }
    rewrite E. reflexivity.
  - intros Hu He Hp Ht. unfold register, loadUsers.
    rewrite (fields_present _ _ _ Hu He Hp).
    apply emailTaken_true in Ht. rewrite Ht. reflexivity.
  - intros Hu He Hp Hne Ht. unfold register, loadUsers.
    rewrite (fields_present _ _ _ Hu He Hp).
    destruct (emailTaken email (users st)) eqn:E.
    + apply emailTaken_true in E. contradiction.
    + apply usernameTaken_true in Ht. rewrite Ht. reflexivity.
Qed.

Lemma fresh_key_unique (f : Account -> string) (k : string) (us : list Account)
  (new : Account) :
  existsb (fun u => String.eqb (f u) k) us = false ->
  f new = k ->
  NoDup (map f us) -> NoDup (map f (us ++ [new])).
Proof.
  intros Hex Hk Hnd. rewrite map_app. simpl. apply NoDup_app.
  split; [exact Hnd|]. split; [|apply NoDup_singleton].
  intros x Hx Hx1. apply list_elem_of_singleton in Hx1. subst x.
  apply list_elem_of_In, in_map_iff in Hx as (u & Hu & Hin).
  assert (E : existsb (fun u => String.eqb (f u) k) us = true).
  { apply existsb_exists. exists u. split; [exact Hin|].
    apply String.eqb_eq. congruence. }
  congruence.
Qed.

(** Where the defects of C4 and C5 do not reach: inputs that [trim()]
    leaves as they are, with a [toLowerCase()] that changes nothing when
    applied a second time. *)
Lemma register_keeps_unique_when_trimmed
  (username email password : string) (now : Z) (st st' : Store) (u : Account) :
  (forall s, toLowerCase (toLowerCase s) = toLowerCase s) ->
  trim username = username -> trim email = email ->
  accounts_unique (users st) ->
  register username email password now st = (Success u, st') ->
  accounts_unique (users st').
Proof.
  intros Hidem Htu Hte [Hun Hem]. unfold register, loadUsers.
  destruct (falsy username || falsy email || falsy password)%bool; [discriminate|].
  destruct (emailTaken email (users st)) eqn:Ee; [discriminate|].
  destruct (usernameTaken username (users st)) eqn:Eu; [discriminate|].
  intros [= <- <-]. simpl. rewrite Htu, Hte. split.
  - apply (fresh_key_unique (fun u => toLowerCase (acc_username u))
             (toLowerCase username)); [exact Eu | reflexivity | exact Hun].
  - apply (fresh_key_unique (fun u => toLowerCase (acc_email u))
             (toLowerCase email)); [exact Ee | apply Hidem | exact Hem].
Qed.

Lemma find_app_last (f : Account -> bool) (us : list Account) (new : Account) :
  existsb f us = false -> f new = true -> find f (us ++ [new]) = Some new.
Proof.
  intros Hex Hn. induction us as [|v r IH]; simpl in *; [rewrite Hn; reflexivity|].
  apply orb_false_iff in Hex as [Hv Hr]. rewrite Hv. apply IH, Hr.
Qed.

Lemma login_after_register_when_trimmed
  (username email password identifier : string) (now : Z) (st st' : Store)
  (u : Account) :
  register username email password now st = (Success u, st') ->
  (identifier = email /\ trim email = email
   \/ identifier = username /\ trim username = username) ->
  existsb (matches_identifier identifier) (users st) = false ->
  fst (login identifier password st') = Success u.
Proof.
  unfold register, loadUsers.
  destruct (falsy username || falsy email || falsy password)%bool eqn:Ef; [discriminate|].
  apply orb_false_iff in Ef as [Ef Hp]. apply orb_false_iff in Ef as [Hu He].
  destruct (emailTaken email (users st)); [discriminate|].
  destruct (usernameTaken username (users st)); [discriminate|].
  intros [= <- <-] Hid Hfresh. unfold login, loadUsers. simpl.
  assert (Hi : falsy identifier = false) by (destruct Hid as [[-> _]|[-> _]]; assumption).
  rewrite Hi, Hp. simpl.
  rewrite (find_app_last _ _ _ Hfresh).
  - simpl. rewrite String.eqb_refl. reflexivity.
  - unfold matches_identifier. simpl. apply orb_true_iff.
    destruct Hid as [[-> Ht]|[-> Ht]]; rewrite Ht;
      [left | right]; apply String.eqb_refl.
Qed.

End Registration.

Section Auth.
Import JS AuthStore.

(** The accounts of the scenarios. *)
Lemma amina_registered_users :
  users Samples.amina_registered = [Samples.amina].
Proof. reflexivity. Qed.

(** The scenario of the specification: after
    [register({username:"amina", email:"A@x.com", password:"secret1"})], a
    second registration with the email "a@x.com" is refused as a conflict. *)
Example register_scenario_conflict :
  fst (register "amina" "A@x.com" "secret1" 1 Samples.no_accounts) = Success Samples.amina
  /\ register "amina" "a@x.com" "secret1" 2 Samples.amina_registered
     = (Failure err_email_taken, Samples.amina_registered)
  /\ error_kind (Failure err_email_taken) = Some ConflictError.
Proof. repeat split. Qed.

(** C4, at the failing input. Registering the username "amina " (with a
    space after it) succeeds and stores the username trimmed; logging in
    with the very same username and password then finds no account. *)
Theorem login_after_register_untrimmed :
  let registered := register "amina " "a@x.com" "secret1" 1 Samples.no_accounts in
  fst registered = Success Samples.amina
  /\ login "amina " "secret1" (snd registered)
     = (Failure err_no_account, snd registered)
  /\ error_kind (Failure err_no_account) = Some NotFoundError.
Proof. repeat split. Qed.

(** C5, at the failing input. The account list [amina] satisfies the
    invariant; registering the username "amina " (with a space after it)
    and a fresh email succeeds, and the list then holds the username
    "amina" twice. *)
Theorem register_duplicates_username :
  let registered := register "amina " "b@x.com" "secret2" 2 Samples.amina_registered in
  accounts_unique (users Samples.amina_registered)
  /\ (exists u, fst registered = Success u)
  /\ map acc_username (users (snd registered)) = ["amina"; "amina"]
  /\ ~ accounts_unique (users (snd registered)).
Proof.
  cbv zeta. split; [|split; [|split]].
  - split; apply NoDup_singleton.
  - eexists. reflexivity.
  - reflexivity.
  - intros [H _]. vm_compute in H. apply NoDup_cons in H as [H _].
    apply H. left.
Qed.

Lemma lower_ascii_idem (c : ascii) :
  AsciiText.lower_ascii (AsciiText.lower_ascii c) = AsciiText.lower_ascii c.
Proof. destruct c as [[] [] [] [] [] [] [] []]; reflexivity. Qed.

(** On ASCII text [toLowerCase()] changes nothing when applied a second
    time. *)
Lemma toLowerCase_idem (s : string) : toLowerCase (toLowerCase s) = toLowerCase s.
Proof.
  change (AsciiText.toLowerCase (AsciiText.toLowerCase s) = AsciiText.toLowerCase s).
  induction s as [|c r IH]; simpl; [reflexivity|].
  rewrite lower_ascii_idem, IH. reflexivity.
Qed.

End Auth.

Lemma register_failures_witness :
  "zainab" <> "" /\ "a@x.com" <> "" /\ "secret2" <> ""
  /\ (exists u, In u (AuthStore.users Samples.amina_registered)
                /\ AuthStore.same_ci (AuthStore.acc_email u) "a@x.com")
  /\ AuthStore.register "zainab" "a@x.com" "secret2" 2 Samples.amina_registered
     = (AuthStore.Failure AuthStore.err_email_taken, Samples.amina_registered).
Proof.
  assert (H1 : "zainab" <> "") by discriminate.
  assert (H2 : "a@x.com" <> "") by discriminate.
  assert (H3 : "secret2" <> "") by discriminate.
  assert (H4 : exists u, In u (AuthStore.users Samples.amina_registered)
                         /\ AuthStore.same_ci (AuthStore.acc_email u) "a@x.com").
  { exists Samples.amina. split; [left; reflexivity | reflexivity]. }
  repeat (split; [assumption|]).
  exact (proj1 (proj2 (register_failures "zainab" "a@x.com" "secret2" 2
                         Samples.amina_registered)) H1 H2 H3 H4).
Defined.

(** ** Favorites *)

Section Favorites.
Import FavoritesStore.

Lemma isFavorited_present (id : string) (st : Store) :
  isFavorited id st = true <-> present id st.
Proof.
  unfold isFavorited, present, getItems, has_id. rewrite existsb_exists.
  split; intros (f & Hin & Hf); exists f; split; try assumption;
    apply String.eqb_eq; assumption.
Qed.

Lemma isFavorited_absent (id : string) (st : Store) :
  isFavorited id st = false <-> ~ present id st.
Proof.
  rewrite <- isFavorited_present. destruct (isFavorited id st); split; congruence.
Qed.

Lemma load_after_save (items : list Favorite) (st : Store) :
  session st <> None -> loadFavorites (saveFavorites items st) = items.
Proof.
  intros Hs. unfold loadFavorites, saveFavorites, getFavKey.
  destruct (session st) as [user|] eqn:E; [|contradiction].
  simpl. rewrite lookup_insert_eq. reflexivity.
Qed.

Lemma guest_load (st : Store) : session st = None -> loadFavorites st = [].
Proof. intros Hs. unfold loadFavorites, getFavKey. rewrite Hs. reflexivity. Qed.

Lemma guest_save (items : list Favorite) (st : Store) :
  session st = None -> saveFavorites items st = st.
Proof. intros Hs. unfold saveFavorites, getFavKey. rewrite Hs. reflexivity. Qed.

Lemma existsb_filter_out (id : string) (items : list Favorite) :
  existsb (has_id id) (List.filter (fun i => negb (has_id id i)) items) = false.
Proof.
  induction items as [|i r IH]; simpl; [reflexivity|].
  destruct (has_id id i) eqn:E; simpl; [exact IH|]. rewrite E, IH. reflexivity.
Qed.

Lemma existsb_push (id : string) (items : list Favorite) (f : Favorite) :
  fav_id f = id -> existsb (has_id id) (items ++ [f]) = true.
Proof.
  intros Hf. rewrite existsb_app. simpl. unfold has_id at 2.
  rewrite Hf, String.eqb_refl. rewrite orb_true_r. reflexivity.
Qed.

Lemma toggle_absent (p : Product) (now : Z) (st : Store) :
  session st <> None -> isFavorited (prod_id p) st = false ->
  fst (toggle p now st) = true
  /\ isFavorited (prod_id p) (snd (toggle p now st)) = true.
Proof.
  intros Hs Hf. unfold toggle. unfold isFavorited in Hf. rewrite Hf. simpl.
  split; [reflexivity|]. unfold isFavorited. rewrite (load_after_save _ _ Hs).
  apply existsb_push. reflexivity.
Qed.

Lemma toggle_present (p : Product) (now : Z) (st : Store) :
  session st <> None -> isFavorited (prod_id p) st = true ->
  fst (toggle p now st) = false
  /\ isFavorited (prod_id p) (snd (toggle p now st)) = false.
Proof.
  intros Hs Hf. unfold toggle. unfold isFavorited in Hf. rewrite Hf. simpl.
  split; [reflexivity|]. unfold isFavorited. rewrite (load_after_save _ _ Hs).
  apply existsb_filter_out.
Qed.

Lemma toggle_session (p : Product) (now : Z) (st : Store) :
  session (snd (toggle p now st)) = session st.
Proof.
  unfold toggle. destruct (existsb _ _); simpl;
    unfold saveFavorites, getFavKey;
    destruct (session st) eqn:E; simpl; congruence.
Qed.

(** C6, as the code has it. With a session, [toggle(p)] returns true
    exactly when [p] is in the favorites read back after the call, and
    false exactly when [p] was in the favorites before the call and is not
    after it; when [p] is not a favorite to begin with, two successive
    calls return true then false, and [isFavorited(p.id)] is true after
    the first and false after the second. Without a session the favorites
    read back are the empty list and [saveFavorites], [addItem],
    [removeItem], [clear] and [toggle] leave the storage as it was. *)
Theorem toggle_reports_presence (p : Product) (now now' : Z) (st : Store) :
  (session st <> None ->
   (fst (toggle p now st) = true <-> present (prod_id p) (snd (toggle p now st)))
   /\ (fst (toggle p now st) = false
       <-> present (prod_id p) st /\ ~ present (prod_id p) (snd (toggle p now st)))
   /\ (isFavorited (prod_id p) st = false ->
       fst (toggle p now st) = true
       /\ isFavorited (prod_id p) (snd (toggle p now st)) = true
       /\ fst (toggle p now' (snd (toggle p now st))) = false
       /\ isFavorited (prod_id p) (snd (toggle p now' (snd (toggle p now st)))) = false))
  /\ (session st = None ->
      getItems st = []
      /\ (forall id, isFavorited id st = false)
      /\ (forall items, saveFavorites items st = st)
      /\ addItem p now st = st
      /\ (forall id, removeItem id st = st)
      /\ clear st = st
      /\ snd (toggle p now st) = st).
Proof.
  split.
  - intros Hs.
    assert (Hs' : session (snd (toggle p now st)) <> None)
      by (rewrite toggle_session; exact Hs).
    destruct (isFavorited (prod_id p) st) eqn:E.
    + destruct (toggle_present p now st Hs E) as [H1 H2].
      apply isFavorited_absent in H2.
      pose proof (proj1 (isFavorited_present _ _) E) as Hp.
      rewrite H1. split; [split; [discriminate | intros H; contradiction]|].
      split; [split; [intros _; split; assumption | reflexivity]|]. discriminate.
    + destruct (toggle_absent p now st Hs E) as [H1 H2].
      destruct (toggle_present p now' _ Hs' H2) as [H3 H4].
      pose proof (proj1 (isFavorited_present _ _) H2) as Hp.
      apply isFavorited_absent in E.
      rewrite H1. split; [split; [intros _; exact Hp | reflexivity]|].
      split; [split; [discriminate | intros [H _]; contradiction]|].
      intros _. repeat split; auto.
  - intros Hs. pose proof (guest_load st Hs) as Hl.
    assert (Hsave : forall items, saveFavorites items st = st)
      by (intros items; apply guest_save, Hs).
    unfold getItems, isFavorited, addItem, removeItem, clear, toggle.
    rewrite Hl. simpl. rewrite !Hsave. repeat split; auto.
Qed.

(** C6 as stated fails for a guest: [toggle(p)] returns true although
    nothing is stored, so [p] is not in the favorites read back and
    [isFavorited(p.id)] is false; a second call returns true again. *)
Lemma toggle_guest_returns_true :
  let r := toggle Samples.scarf 1 Samples.guest in
  fst r = true
  /\ getItems (snd r) = []
  /\ isFavorited "p1" (snd r) = false
  /\ fst (toggle Samples.scarf 2 (snd r)) = true.
Proof. repeat split. Qed.

End Favorites.

Lemma toggle_reports_presence_witness :
  FavoritesStore.session Samples.amina_favorites <> None
  /\ FavoritesStore.isFavorited "p1" Samples.amina_favorites = false
  /\ fst (FavoritesStore.toggle Samples.scarf 1 Samples.amina_favorites) = true
  /\ FavoritesStore.isFavorited "p1"
       (snd (FavoritesStore.toggle Samples.scarf 1 Samples.amina_favorites)) = true
  /\ fst (FavoritesStore.toggle Samples.scarf 2
            (snd (FavoritesStore.toggle Samples.scarf 1 Samples.amina_favorites))) = false
  /\ FavoritesStore.isFavorited "p1"
       (snd (FavoritesStore.toggle Samples.scarf 2
               (snd (FavoritesStore.toggle Samples.scarf 1 Samples.amina_favorites)))) = false.
Proof.
  assert (Hs : FavoritesStore.session Samples.amina_favorites <> None) by discriminate.
  assert (Hf : FavoritesStore.isFavorited "p1" Samples.amina_favorites = false)
    by reflexivity.
  split; [exact Hs|]. split; [exact Hf|].
  exact (proj2 (proj2 (proj1
           (toggle_reports_presence Samples.scarf 1 2 Samples.amina_favorites) Hs)) Hf).
Defined.

(** ** Theme preference and the system preference *)

Section ThemePreference.
Import Theme.

(** The listener on its own: with no value under the key it applies the
    system preference, with "dark" or "light" stored it does nothing. *)
Lemma on_os_change_unset (matches : bool) (w : World) :
  stored w = None -> on_os_change matches w = applyTheme matches w.
Proof. intros H. unfold on_os_change, hasManualChoice. rewrite H. reflexivity. Qed.

Lemma on_os_change_set (matches isDark : bool) (w : World) :
  stored w = Some (theme_name isDark) -> on_os_change matches w = w.
Proof.
  intros H. unfold on_os_change, hasManualChoice. rewrite H.
  destruct isDark; reflexivity.
Qed.

(** Loading the module always leaves a value under the key. *)
Lemma module_load_stores (stored_value : option string) (os : bool) :
  stored (module_load stored_value os)
  = Some (theme_name (resolveInitialTheme stored_value os)).
Proof. reflexivity. Qed.

Lemma applyTheme_stores (isDark : bool) (w : World) :
  stored (applyTheme isDark w) = Some (theme_name isDark).
Proof. reflexivity. Qed.

(** So once the module is loaded, no change of the system preference
    switches the theme, whether or not the user ever chose one. *)
Lemma os_changes_ignored_after_load (stored_value : option string) (os : bool)
  (evs : list Event) :
  user_chose evs = false ->
  run evs (module_load stored_value os) = module_load stored_value os.
Proof.
  generalize (module_load_stores stored_value os).
  generalize (resolveInitialTheme stored_value os) as d.
  generalize (module_load stored_value os) as w.
  induction evs as [|e evs IH]; intros w d Hw Hc; [reflexivity|].
  destruct e as [m|]; [|discriminate]. simpl in *.
  rewrite (on_os_change_set m d w Hw). apply (IH w d Hw Hc).
Qed.

(** C9, at the failing input. Nothing is stored under the theme key and
    the system prefers light when the module loads; the user never toggles;
    the system preference then changes to dark. Loading has already
    written "light" under the key, so the listener takes it for a manual
    choice and the theme stays light. *)
Theorem os_change_ignored_without_choice :
  let loaded := module_load None false in
  let after := run [OsChange true] loaded in
  user_chose [OsChange true] = false
  /\ stored loaded = Some "light"
  /\ hasManualChoice loaded = true
  /\ _isDark after = false
  /\ data_theme after = Some "light"
  /\ after = loaded.
Proof. repeat split. Qed.

End ThemePreference.

(** ** The in-session password change *)

Section PasswordChange.
Import AuthStore Profile.




End PasswordChange.


(** * Further properties of the stores and pages *)

(** ** Lists with unique keys *)

Section FilterTake.
Context {A : Type}.

Lemma filter_none (g : A -> bool) (l : list A) :
  (forall a, In a l -> g a = false) -> List.filter g l = [].
Proof.
  induction l as [|a r IH]; simpl; [reflexivity|]. intros H.
  rewrite (H a) by tauto. apply IH. intros b Hb. apply H. tauto.
Qed.

Lemma filter_all (g : A -> bool) (l : list A) :
  (forall a, In a l -> g a = true) -> List.filter g l = l.
Proof.
  induction l as [|a r IH]; simpl; [reflexivity|]. intros H.
  rewrite (H a) by tauto. f_equal. apply IH. intros b Hb. apply H. tauto.
Qed.

Lemma In_take (n : nat) (l : list A) (a : A) : In a (take n l) -> In a l.
Proof.
  revert n. induction l as [|b r IH]; intros [|n]; simpl; try tauto.
  intros [H|H]; [tauto|]. right. eapply IH, H.
Qed.

End FilterTake.

Section ListFacts.
Context {A B : Type} (f : A -> B).

Lemma elem_map_filter (g : A -> bool) (l : list A) (x : B) :
  x ∈ map f (List.filter g l) -> x ∈ map f l.
Proof.
  induction l as [|a r IH]; simpl; [tauto|].
  destruct (g a); simpl; rewrite ?elem_of_cons; tauto.
Qed.

Lemma NoDup_map_filter (g : A -> bool) (l : list A) :
  NoDup (map f l) -> NoDup (map f (List.filter g l)).
Proof.
  induction l as [|a r IH]; simpl; [tauto|].
  rewrite NoDup_cons. intros [Hni Hr]. destruct (g a); simpl; [|tauto].
  rewrite NoDup_cons. split; [|tauto].
  intros H. apply Hni. eapply elem_map_filter, H.
Qed.

Lemma elem_map_take (n : nat) (l : list A) (x : B) :
  x ∈ map f (take n l) -> x ∈ map f l.
Proof.
  revert n. induction l as [|a r IH]; intros [|n]; simpl; try tauto.
  - intros H. apply elem_of_nil in H. contradiction.
  - rewrite !elem_of_cons. intros [H|H]; [tauto|]. right. eapply IH, H.
Qed.

Lemma NoDup_map_take (n : nat) (l : list A) :
  NoDup (map f l) -> NoDup (map f (take n l)).
Proof.
  revert n. induction l as [|a r IH]; intros [|n]; simpl; try tauto.
  - intros _. apply NoDup_nil_2.
  - rewrite !NoDup_cons. intros [Hni Hr]. split; [|apply IH, Hr].
    intros H. apply Hni. eapply elem_map_take, H.
Qed.

End ListFacts.

(** ** Recently viewed products *)

Section RecentlyViewed.
Import RecentlyViewedStore.

Lemma load_save (items : list Viewed) (st : Store) : load (save items st) = items.
Proof. unfold load, save, getKey. simpl. rewrite lookup_insert_eq. reflexivity. Qed.

Lemma getItems_addItem (p : FavoritesStore.Product) (now : Z) (st : Store) :
  getItems (addItem p now st)
  = viewed_of p now
    :: take 7 (List.filter (other_than (FavoritesStore.prod_id p)) (load st)).
Proof. unfold getItems, addItem. rewrite load_save. reflexivity. Qed.

Lemma other_than_true (id : string) (i : Viewed) :
  other_than id i = true <-> rv_id i <> id.
Proof.
  unfold other_than. rewrite negb_true_iff. apply String.eqb_neq.
Qed.

Lemma other_than_false (id : string) (i : Viewed) :
  other_than id i = false <-> rv_id i = id.
Proof.
  unfold other_than. rewrite negb_false_iff. apply String.eqb_eq.
Qed.

(** X1. After [addItem(product)] the list read back has at most 8 entries,
    its first entry is the product just viewed, stamped with the time of
    the call, and no other entry has the product's id. *)
Theorem recently_viewed_front_cap_once (p : FavoritesStore.Product) (now : Z)
  (st : Store) :
  (length (getItems (addItem p now st)) <= MAX_ITEMS)%nat
  /\ head (getItems (addItem p now st)) = Some (viewed_of p now)
  /\ List.filter (fun i => String.eqb (rv_id i) (FavoritesStore.prod_id p))
       (getItems (addItem p now st)) = [viewed_of p now].
Proof.
  rewrite getItems_addItem. split; [|split].
  - simpl. rewrite length_take. unfold MAX_ITEMS. lia.
  - reflexivity.
  - simpl. rewrite String.eqb_refl. f_equal. apply filter_none.
    intros a Ha. apply In_take, filter_In in Ha as [_ Ha].
    apply other_than_true in Ha. apply String.eqb_neq. exact Ha.
Qed.

Lemma rv_addItem_unique (p : FavoritesStore.Product) (now : Z) (st : Store) :
  NoDup (map rv_id (getItems st)) -> NoDup (map rv_id (getItems (addItem p now st))).
Proof.
  rewrite getItems_addItem. unfold getItems. intros Hnd. simpl.
  apply NoDup_cons. split.
  - intros H. apply elem_map_take, list_elem_of_In, in_map_iff in H as (i & Hi & Hin).
    apply filter_In in Hin as [_ Hin]. apply other_than_true in Hin. contradiction.
  - apply NoDup_map_take, NoDup_map_filter, Hnd.
Qed.

Lemma rv_addItem_from (p : FavoritesStore.Product) (now : Z) (st : Store) (i : Viewed) :
  In i (getItems (addItem p now st)) -> i = viewed_of p now \/ In i (getItems st).
Proof.
  rewrite getItems_addItem. unfold getItems.
  intros [Hi|Hi]; [left; congruence|]. right.
  apply In_take, filter_In in Hi. tauto.
Qed.

(** X2. [addItem] keeps the ids of the list unique, adds nothing but the
    product viewed, and keeps the entries it retains in their order. *)
Theorem recently_viewed_keeps_unique (p : FavoritesStore.Product) (now : Z)
  (st : Store) :
  (NoDup (map rv_id (getItems st)) -> NoDup (map rv_id (getItems (addItem p now st))))
  /\ (forall i, In i (getItems (addItem p now st)) ->
                i = viewed_of p now \/ In i (getItems st))
  /\ sublist (tail (getItems (addItem p now st))) (getItems st).
Proof.
  split; [apply rv_addItem_unique|]. split; [apply rv_addItem_from|].
  rewrite getItems_addItem. unfold getItems.
  simpl. etransitivity; [apply sublist_take|].
  induction (load st) as [|a r IH]; simpl; [constructor|].
  destruct (other_than _ a); [apply sublist_skip | apply sublist_cons]; exact IH.
Qed.

Lemma length_filter_other (id : string) (l : list Viewed) :
  NoDup (map rv_id l) -> In id (map rv_id l) ->
  S (length (List.filter (other_than id) l)) = length l.
Proof.
  induction l as [|a r IH]; simpl; [tauto|].
  rewrite NoDup_cons. intros [Hni Hr] Hin.
  destruct (other_than id a) eqn:E; simpl.
  - apply other_than_true in E. f_equal. apply IH; [exact Hr | tauto].
  - apply other_than_false in E. f_equal. f_equal. apply filter_all.
    intros b Hb. apply other_than_true. intros Hbe. apply Hni.
    apply list_elem_of_In, in_map_iff. exists b. split; [congruence | exact Hb].
Qed.

Lemma rv_addItem_length_new (p : FavoritesStore.Product) (now : Z) (st : Store) :
  ~ In (FavoritesStore.prod_id p) (map rv_id (getItems st)) ->
  length (getItems (addItem p now st)) = Nat.min 8 (S (length (getItems st))).
Proof.
  intros Hin. rewrite getItems_addItem. unfold getItems in *.
  cbn [length]. rewrite length_take.
  rewrite filter_all; [lia|]. intros a Ha. apply other_than_true.
  intros He. apply Hin, in_map_iff. exists a. tauto.
Qed.

(** X3. On a list with unique ids, viewing a product that is already in
    the list leaves the number of entries as it is (capped at 8), and viewing
    a product that is not adds one entry, up to the cap of 8. *)
Theorem recently_viewed_length (p : FavoritesStore.Product) (now : Z) (st : Store) :
  NoDup (map rv_id (getItems st)) ->
  (In (FavoritesStore.prod_id p) (map rv_id (getItems st)) ->
   length (getItems (addItem p now st)) = Nat.min 8 (length (getItems st)))
  /\ (~ In (FavoritesStore.prod_id p) (map rv_id (getItems st)) ->
      length (getItems (addItem p now st)) = Nat.min 8 (S (length (getItems st)))).
Proof.
  intros Hnd. split; [|apply rv_addItem_length_new].
  intros Hin. rewrite getItems_addItem. unfold getItems in *.
  cbn [length]. rewrite length_take.
  pose proof (length_filter_other _ _ Hnd Hin). lia.
Qed.

Lemma view_all_app (vs ws : list (FavoritesStore.Product * Z)) (st : Store) :
  view_all (vs ++ ws) st = view_all ws (view_all vs st).
Proof. unfold view_all. apply fold_left_app. Qed.

Lemma view_same_product (p : FavoritesStore.Product) (times : list Z) :
  times <> [] ->
  forall st,
    (getItems st = [] \/ exists t, getItems st = [viewed_of p t]) ->
    exists t, getItems (view_all (map (fun t => (p, t)) times) st) = [viewed_of p t].
Proof.
  induction times as [|x xs IH]; [congruence|]. intros _ st Hst.
  assert (H1 : getItems (addItem p x st) = [viewed_of p x]).
  { rewrite getItems_addItem. unfold getItems in Hst.
    destruct Hst as [->|[t ->]]; simpl; [reflexivity|].
    unfold other_than. simpl. rewrite String.eqb_refl. reflexivity. }
  destruct xs as [|y ys]; [exists x; exact H1|].
  apply (IH ltac:(discriminate) (addItem p x st)). right. exists x. exact H1.
Qed.

Lemma view_distinct_products (others : list (FavoritesStore.Product * Z)) :
  NoDup (map (fun v => FavoritesStore.prod_id (fst v)) others) ->
  forall st,
    (length (getItems st) <= 8)%nat ->
    NoDup (map rv_id (getItems st)) ->
    (forall v, In v others ->
               ~ In (FavoritesStore.prod_id (fst v)) (map rv_id (getItems st))) ->
    length (getItems (view_all others st))
    = Nat.min 8 (length (getItems st) + length others)
    /\ NoDup (map rv_id (getItems (view_all others st))).
Proof.
  induction others as [|[q t] r IH].
  - intros _ st Hlen Hnd _. unfold view_all. cbn [fold_left length].
    split; [lia | exact Hnd].
  - cbn [map fst]. rewrite NoDup_cons. intros [Hq Hr] st Hlen Hnd Hfresh.
    change (view_all ((q, t) :: r) st) with (view_all r (addItem q t st)).
    cbn [length].
    pose proof (rv_addItem_length_new q t st (Hfresh (q, t) (or_introl eq_refl))) as Hl.
    pose proof (rv_addItem_unique q t st Hnd) as Hnd1.
    destruct (IH Hr (addItem q t st)) as [IH1 IH2].
    + rewrite Hl. lia.
    + exact Hnd1.
    + intros v Hv Hin. apply in_map_iff in Hin as (i & Hi & Hin).
      apply rv_addItem_from in Hin as [->|Hin].
      * apply Hq. cbn [rv_id viewed_of] in Hi. rewrite Hi.
        apply list_elem_of_In, in_map_iff. exists v. tauto.
      * apply (Hfresh v (or_intror Hv)). apply in_map_iff. exists i. tauto.
    + split; [|exact IH2]. rewrite IH1, Hl. lia.
Qed.

(** X4. Starting from an empty list, viewing one product any number of
    times (at least once) and then products with pairwise different ids,
    none of them the first product's, leaves min(8, 1 + their number)
    entries, and the product viewed last is the first entry: nine views of
    one product followed by seven other products give exactly eight
    entries. *)
Theorem recently_viewed_repeated_then_distinct (p : FavoritesStore.Product)
  (times : list Z) (others : list (FavoritesStore.Product * Z)) (st : Store) :
  getItems st = [] -> times <> [] ->
  NoDup (map (fun v => FavoritesStore.prod_id (fst v)) others) ->
  ~ In (FavoritesStore.prod_id p) (map (fun v => FavoritesStore.prod_id (fst v)) others) ->
  let views := (map (fun t => (p, t)) times ++ others)%list in
  length (getItems (view_all views st)) = Nat.min 8 (1 + length others)
  /\ (forall q t, last views = Some (q, t) ->
                  head (getItems (view_all views st)) = Some (viewed_of q t)).
Proof.
  intros Hempty Htimes Hnd Hp views. split.
  - unfold views. rewrite view_all_app.
    destruct (view_same_product p times Htimes st (or_introl Hempty)) as [t Ht].
    destruct (view_distinct_products others Hnd
                (view_all (map (fun t => (p, t)) times) st)) as [Hl _].
    + rewrite Ht. simpl. lia.
    + rewrite Ht. apply NoDup_singleton.
    + rewrite Ht. simpl. intros v Hv [He|[]]. apply Hp, in_map_iff.
      exists v. split; [congruence | exact Hv].
    + rewrite Hl, Ht. reflexivity.
  - intros q t Hlast. apply last_Some in Hlast as [vs ->].
    rewrite view_all_app. simpl. rewrite getItems_addItem. reflexivity.
Qed.

Lemma distinct_viewers_keys (s1 s2 : option AuthStore.Session) (st : Store) :
  SessionSwitch.distinct_viewers s1 s2 ->
  getKey (SessionSwitch.recently_viewed_as s1 st)
  <> getKey (SessionSwitch.recently_viewed_as s2 st).
Proof.
  unfold getKey. destruct s1 as [u1|], s2 as [u2|]; simpl; intros Hd He.
  - injection He. tauto.
  - injection He. tauto.
  - injection He. intros H. apply Hd. symmetry. exact H.
  - exact Hd.
Qed.

(** X5. What one viewer records or clears does not touch the list of
    another: for two users with different ids, or a guest and a user whose id
    is not "guest", the second reads the same list after the first's
    [addItem] or [clear] as before. The ids [register] gives out are never
    "guest". *)
Theorem recently_viewed_isolated `{B : JS.Builtins} (s1 s2 : option AuthStore.Session)
  (p : FavoritesStore.Product) (now : Z) (st : Store) :
  SessionSwitch.distinct_viewers s1 s2 ->
  getItems (SessionSwitch.recently_viewed_as s2
              (addItem p now (SessionSwitch.recently_viewed_as s1 st)))
  = getItems (SessionSwitch.recently_viewed_as s2 st)
  /\ getItems (SessionSwitch.recently_viewed_as s2
                 (clear (SessionSwitch.recently_viewed_as s1 st)))
     = getItems (SessionSwitch.recently_viewed_as s2 st)
  /\ (forall username email password t ast u ast',
         AuthStore.register username email password t ast = (AuthStore.Success u, ast') ->
         AuthStore.acc_id u <> "guest").
Proof.
  intros Hd. pose proof (distinct_viewers_keys s1 s2 st Hd) as Hk.
  unfold getItems, load, addItem, clear, save. simpl.
  split; [|split].
  - rewrite lookup_insert_ne; [reflexivity|]. exact Hk.
  - rewrite lookup_insert_ne; [reflexivity|]. exact Hk.
  - intros username email password t ast u ast'. unfold AuthStore.register.
    destruct (_ || _ || _)%bool; [discriminate|].
    destruct (AuthStore.emailTaken _ _); [discriminate|].
    destruct (AuthStore.usernameTaken _ _); [discriminate|].
    intros [= <- _]. simpl. discriminate.
Qed.

End RecentlyViewed.

Lemma recently_viewed_length_witness :
  NoDup (map RecentlyViewedStore.rv_id (RecentlyViewedStore.getItems Samples2.guest_viewer))
  /\ ~ In "p1" (map RecentlyViewedStore.rv_id
                  (RecentlyViewedStore.getItems Samples2.guest_viewer))
  /\ length (RecentlyViewedStore.getItems
               (RecentlyViewedStore.addItem (Samples2.product "p1") 1 Samples2.guest_viewer))
     = Nat.min 8 (S (length (RecentlyViewedStore.getItems Samples2.guest_viewer))).
Proof.
  assert (H1 : NoDup (map RecentlyViewedStore.rv_id
                        (RecentlyViewedStore.getItems Samples2.guest_viewer)))
    by apply NoDup_nil_2.
  assert (H2 : ~ In "p1" (map RecentlyViewedStore.rv_id
                            (RecentlyViewedStore.getItems Samples2.guest_viewer)))
    by (intros []).
  split; [exact H1|]. split; [exact H2|].
  exact (proj2 (recently_viewed_length (Samples2.product "p1") 1 Samples2.guest_viewer H1) H2).
Defined.

Lemma recently_viewed_repeated_then_distinct_witness :
  let others := [(Samples2.product "p2", 10); (Samples2.product "p3", 11);
                 (Samples2.product "p4", 12); (Samples2.product "p5", 13);
                 (Samples2.product "p6", 14); (Samples2.product "p7", 15);
                 (Samples2.product "p8", 16)] in
  let views := (map (fun t => (Samples2.product "p1", t)) [1; 2; 3; 4; 5; 6; 7; 8; 9]
                ++ others)%list in
  length (RecentlyViewedStore.getItems
            (RecentlyViewedStore.view_all views Samples2.guest_viewer)) = 8%nat
  /\ head (RecentlyViewedStore.getItems
             (RecentlyViewedStore.view_all views Samples2.guest_viewer))
     = Some (RecentlyViewedStore.viewed_of (Samples2.product "p8") 16).
Proof.
  intros others views.
  assert (H1 : RecentlyViewedStore.getItems Samples2.guest_viewer = []) by reflexivity.
  assert (H2 : [1; 2; 3; 4; 5; 6; 7; 8; 9] <> []) by discriminate.
  assert (H3 : NoDup (map (fun v => FavoritesStore.prod_id (fst v)) others))
    by (apply (bool_decide_unpack _); vm_compute; exact I).
  assert (H4 : ~ In "p1" (map (fun v => FavoritesStore.prod_id (fst v)) others)).
  { simpl. intros H. repeat (destruct H as [H|H]; [discriminate|]). exact H. }
  pose proof (recently_viewed_repeated_then_distinct (Samples2.product "p1")
                [1; 2; 3; 4; 5; 6; 7; 8; 9] others Samples2.guest_viewer H1 H2 H3 H4)
    as [Hlen Hhead].
  split; [exact Hlen|]. apply Hhead. reflexivity.
Defined.

Lemma recently_viewed_isolated_witness :
  SessionSwitch.distinct_viewers (Some Samples.amina_session) None
  /\ RecentlyViewedStore.getItems
       (SessionSwitch.recently_viewed_as None
          (RecentlyViewedStore.addItem (Samples2.product "p1") 1
             (SessionSwitch.recently_viewed_as (Some Samples.amina_session)
                Samples2.guest_viewer)))
     = RecentlyViewedStore.getItems
         (SessionSwitch.recently_viewed_as None Samples2.guest_viewer).
Proof.
  assert (H : SessionSwitch.distinct_viewers (Some Samples.amina_session) None)
    by (simpl; discriminate).
  split; [exact H|].
  exact (proj1 (recently_viewed_isolated (Some Samples.amina_session) None
                  (Samples2.product "p1") 1 Samples2.guest_viewer H)).
Defined.

(** ** Login, logout and registration *)

Section AuthMore.
Import JS AuthStore.
Context `{B : Builtins}.

(** X6. [login] never changes the account list; when it fails it changes
    nothing at all, and when it succeeds the session becomes the id,
    username and email of the account it returns. Its answer depends on the
    account list only, not on who was logged in before. *)
Theorem login_changes_session_only (identifier password : string) (st : Store) :
  users (snd (login identifier password st)) = users st
  /\ (forall e, fst (login identifier password st) = Failure e ->
                snd (login identifier password st) = st)
  /\ (forall u, fst (login identifier password st) = Success u ->
                session (snd (login identifier password st)) = Some (SessionSwitch.safe_fields u))
  /\ (forall st2, users st2 = users st ->
                  fst (login identifier password st2) = fst (login identifier password st)).
Proof.
  unfold login, loadUsers.
  destruct (falsy identifier || falsy password)%bool.
  { repeat split; try reflexivity. intros u H. discriminate. }
  split; [|split; [|split]].
  - destruct (find _ (users st)) as [a|]; [|reflexivity].
    destruct (negb _); reflexivity.
  - destruct (find _ (users st)) as [a|]; [|reflexivity].
    destruct (negb _); [reflexivity|]. intros e H. discriminate.
  - destruct (find _ (users st)) as [a|]; [|intros u H; discriminate].
    destruct (negb _); intros u H; [discriminate|].
    simpl in H. injection H as <-. reflexivity.
  - intros st2 ->. destruct (find _ (users st)) as [a|]; [|reflexivity].
    destruct (negb _); reflexivity.
Qed.

(** X7. [login] succeeds only for a stored account whose password is
    exactly the one given and whose email is [identifier.toLowerCase()] or
    whose username has the same [toLowerCase()] as the identifier; and it
    reports that no account was found exactly when both fields are filled in
    and no stored account matches the identifier in that way. *)
Theorem login_sound (identifier password : string) (st : Store) :
  (forall u, fst (login identifier password st) = Success u ->
             In u (users st)
             /\ acc_password u = password
             /\ (acc_email u = toLowerCase identifier
                 \/ same_ci (acc_username u) identifier))
  /\ (fst (login identifier password st) = Failure err_no_account
      <-> identifier <> "" /\ password <> ""
          /\ forall u, In u (users st) ->
                       acc_email u <> toLowerCase identifier
                       /\ ~ same_ci (acc_username u) identifier).
Proof.
  unfold login, loadUsers, same_ci.
  destruct (falsy identifier) eqn:Ei; simpl.
  { apply falsy_true in Ei. split; [intros u H; discriminate|].
    split; [discriminate | tauto]. }
  destruct (falsy password) eqn:Ep; simpl.
  { apply falsy_true in Ep. split; [intros u H; discriminate|].
    split; [discriminate | tauto]. }
  apply falsy_false in Ei, Ep.
  destruct (find _ (users st)) as [a|] eqn:Hf.
  - pose proof (find_some _ _ Hf) as [Hin Hm].
    unfold matches_identifier in Hm. apply orb_true_iff in Hm.
    rewrite !String.eqb_eq in Hm.
    destruct (String.eqb (acc_password a) password) eqn:Epw; simpl.
    + apply String.eqb_eq in Epw. split.
      * intros u [= <-]. tauto.
      * split; [discriminate|]. intros (_ & _ & H). destruct (H a Hin). tauto.
    + split; [intros u H; discriminate|].
      split; [discriminate|]. intros (_ & _ & H). destruct (H a Hin). tauto.
  - split; [intros u H; discriminate|]. split; [|reflexivity].
    intros _. split; [exact Ei|]. split; [exact Ep|].
    intros u Hu. pose proof (find_none _ _ Hf u Hu) as Hm.
    unfold matches_identifier in Hm. apply orb_false_iff in Hm as [H1 H2].
    apply String.eqb_neq in H1, H2. tauto.
Qed.

(** X9. A successful [register] appends exactly the account it returns to
    the account list, logs that account in, and stores what [trim()] makes
    of the username, what [toLowerCase()] makes of the trimmed email, the
    password as given and an id made of "user-" and the time of the call.
    The three fields it was given are not empty, but the username stored may
    be: it is empty when the username given is white space only. *)
Theorem register_success_effects (username email password : string) (now : Z)
  (st st' : Store) (u : Account) :
  register username email password now st = (Success u, st') ->
  users st' = (users st ++ [u])%list
  /\ getCurrentUser st' = Some (SessionSwitch.safe_fields u)
  /\ isLoggedIn st' = true
  /\ acc_id u = "user-" +:+ pretty now
  /\ acc_username u = trim username
  /\ acc_email u = toLowerCase (trim email)
  /\ acc_password u = password
  /\ username <> "" /\ email <> "" /\ password <> "".
Proof.
  unfold register, loadUsers.
  destruct (falsy username) eqn:Eu; [discriminate|].
  destruct (falsy email) eqn:Ee; [discriminate|].
  destruct (falsy password) eqn:Ep; [discriminate|]. simpl.
  destruct (emailTaken email (users st)); [discriminate|].
  destruct (usernameTaken username (users st)); [discriminate|].
  intros [= <- <-]. apply falsy_false in Eu, Ee, Ep. repeat split; assumption.
Qed.

Lemma emails_lowercase_app (us : list Account) (u : Account) :
  Login.emails_lowercase us -> toLowerCase (acc_email u) = acc_email u ->
  Login.emails_lowercase (us ++ [u]).
Proof.
  intros H Hu. apply Forall_app. split; [exact H|]. constructor; [exact Hu | constructor].
Qed.

Lemma emails_lowercase_map (f : Account -> Account) (us : list Account) :
  (forall u, acc_email (f u) = acc_email u) ->
  Login.emails_lowercase us -> Login.emails_lowercase (map f us).
Proof.
  intros Hf H. induction H as [|u r Hu Hr IH]; simpl; constructor; [|exact IH].
  rewrite Hf. exact Hu.
Qed.

(** Two identifiers with the same [toLowerCase()] give the same login
    result and the same store, for a [toLowerCase()] that makes the empty
    text of the empty text only. *)
Lemma login_same_lower (id1 id2 password : string) (st : Store) :
  (forall s, falsy (toLowerCase s) = falsy s) ->
  same_ci id1 id2 -> login id1 password st = login id2 password st.
Proof.
  unfold same_ci. intros Hl H. unfold login, matches_identifier.
  assert (Hf : falsy id1 = falsy id2) by (rewrite <- (Hl id1), <- (Hl id2), H; reflexivity).
  rewrite Hf, H. reflexivity.
Qed.

(** Stored emails stay fixed by [toLowerCase()], for a [toLowerCase()]
    that changes nothing when applied a second time. *)
Lemma emails_lowercase_kept (us : list Account) :
  (forall s, toLowerCase (toLowerCase s) = toLowerCase s) ->
  Login.emails_lowercase us ->
  (forall username email password now ses,
      Login.emails_lowercase
        (users (snd (register username email password now
                       {| users := us; session := ses |}))))
  /\ (forall user currentPw newPw confirmPw,
         Login.emails_lowercase
           (snd (Profile.handleChangePassword user currentPw newPw confirmPw us)))
  /\ (forall resetEmail resetNewPw resetConfirm,
         Login.emails_lowercase
           (snd (Login.handleResetSave resetEmail resetNewPw resetConfirm us))).
Proof.
  intros Hidem H. split; [|split].
  - intros username email password now ses. unfold register, loadUsers. simpl.
    destruct (_ || _ || _)%bool; [exact H|].
    destruct (emailTaken _ _); [exact H|].
    destruct (usernameTaken _ _); [exact H|]. simpl.
    apply emails_lowercase_app; [exact H|]. simpl. apply Hidem.
  - intros user currentPw newPw confirmPw. unfold Profile.handleChangePassword.
    destruct (_ <? _)%nat; [exact H|]. destruct (negb _); [exact H|].
    destruct (find _ us) as [a|]; [|exact H]. destruct (negb _); [exact H|].
    simpl. apply emails_lowercase_map; [|exact H].
    intros u. destruct (String.eqb _ _); reflexivity.
  - intros resetEmail resetNewPw resetConfirm. unfold Login.handleResetSave.
    destruct (_ <? _)%nat; [exact H|]. destruct (negb _); [exact H|].
    simpl. apply emails_lowercase_map; [|exact H].
    intros u. destruct (Login.is_reset_account _ _); reflexivity.
Qed.

(** The defect behind C4, whatever the built-ins: on an empty account list,
    a username that [trim()] changes, up to letter case, and that is not
    the email stored either, registers and then finds no account. *)
Lemma login_after_register_lost (username email password : string) (now : Z)
  (st st' : Store) (u : Account) :
  users st = [] ->
  register username email password now st = (Success u, st') ->
  toLowerCase (trim username) <> toLowerCase username ->
  toLowerCase (trim email) <> toLowerCase username ->
  login username password st' = (Failure err_no_account, st').
Proof.
  intros Hnone. unfold register, loadUsers. rewrite Hnone.
  destruct (falsy username) eqn:Eu; [discriminate|].
  destruct (falsy email) eqn:Ee; [discriminate|].
  destruct (falsy password) eqn:Ep; [discriminate|]. simpl.
  intros [= <- <-] Hname Hmail. unfold login, loadUsers, matches_identifier. simpl.
  rewrite Eu, Ep. simpl.
  apply String.eqb_neq in Hname, Hmail. rewrite Hname, Hmail. reflexivity.
Qed.

End AuthMore.

(** The same on ASCII text, where [toLowerCase()] has both properties. *)

Section AuthOnAsciiText.
Import JS AuthStore.

(** X8. The identifier is compared without regard to letter case: two
    identifiers that differ only in case give the same login result and the
    same store. *)
Theorem login_ignores_identifier_case (id1 id2 password : string) (st : Store) :
  same_ci id1 id2 -> login id1 password st = login id2 password st.
Proof.
  apply login_same_lower. intros s. destruct s; reflexivity.
Qed.

(** X10. Stored emails stay in lower case: when every stored email is in
    lower case, it is still so after a registration, an in-session password
    change and a password reset. *)
Theorem emails_stay_lowercase (us : list Account) :
  Login.emails_lowercase us ->
  (forall username email password now ses,
      Login.emails_lowercase
        (users (snd (register username email password now
                       {| users := us; session := ses |}))))
  /\ (forall user currentPw newPw confirmPw,
         Login.emails_lowercase
           (snd (Profile.handleChangePassword user currentPw newPw confirmPw us)))
  /\ (forall resetEmail resetNewPw resetConfirm,
         Login.emails_lowercase
           (snd (Login.handleResetSave resetEmail resetNewPw resetConfirm us))).
Proof. apply emails_lowercase_kept. exact toLowerCase_idem. Qed.

End AuthOnAsciiText.

(** ** The forgotten-password flow *)

Section PasswordReset.
Import JS AuthStore Login.
Context `{B : Builtins}.

Lemma is_reset_account_true (resetEmail : string) (u : Account) :
  is_reset_account resetEmail u = true <-> same_ci (acc_email u) (trim resetEmail).
Proof. unfold is_reset_account, same_ci. apply String.eqb_eq. Qed.

Lemma is_reset_account_false (resetEmail : string) (u : Account) :
  is_reset_account resetEmail u = false <-> ~ same_ci (acc_email u) (trim resetEmail).
Proof. unfold is_reset_account, same_ci. apply String.eqb_neq. Qed.

Lemma map_id_on (f : Account -> Account) (us : list Account) :
  (forall u, In u us -> f u = u) -> map f us = us.
Proof.
  induction us as [|u r IH]; simpl; [reflexivity|]. intros H.
  rewrite (H u) by tauto. f_equal. apply IH. intros v Hv. apply H. tauto.
Qed.

(** X11. Step 2 of the password recovery: a new password shorter than 6
    characters (UTF-16 code units) or different from its confirmation is
    refused and the account list is left as it was; otherwise the step
    reports success without asking for the old password, every account whose
    email has the same [toLowerCase()] as the trimmed reset email gets the
    new password and keeps its other fields, every other account is
    unchanged, and when step 1 would have found no account the list is
    unchanged although success is reported. *)
Theorem reset_save_frame (resetEmail resetNewPw resetConfirm : string)
  (us : list Account) :
  ((str_length resetNewPw < 6)%nat ->
   handleResetSave resetEmail resetNewPw resetConfirm us
   = (Profile.PwError err_reset_too_short, us))
  /\ ((6 <= str_length resetNewPw)%nat -> resetNewPw <> resetConfirm ->
      handleResetSave resetEmail resetNewPw resetConfirm us
      = (Profile.PwError err_reset_no_match, us))
  /\ ((6 <= str_length resetNewPw)%nat -> resetNewPw = resetConfirm ->
      fst (handleResetSave resetEmail resetNewPw resetConfirm us) = Profile.PwSuccess
      /\ (forall (i : nat) (u : Account),
             nth_error us i = Some u ->
             exists u',
               nth_error (snd (handleResetSave resetEmail resetNewPw resetConfirm us)) i
               = Some u'
               /\ acc_id u' = acc_id u
               /\ acc_username u' = acc_username u
               /\ acc_email u' = acc_email u
               /\ (same_ci (acc_email u) (trim resetEmail) -> acc_password u' = resetNewPw)
               /\ (~ same_ci (acc_email u) (trim resetEmail) ->
                   acc_password u' = acc_password u))
      /\ (handleResetLookup resetEmail us = Some err_reset_no_account ->
          snd (handleResetSave resetEmail resetNewPw resetConfirm us) = us)).
Proof.
  unfold handleResetSave. split; [|split].
  - intros H. apply Nat.ltb_lt in H. rewrite H. reflexivity.
  - intros H Hne. apply Nat.ltb_ge in H. rewrite H.
    apply String.eqb_neq in Hne. rewrite Hne. reflexivity.
  - intros H ->. apply Nat.ltb_ge in H. rewrite H, String.eqb_refl. simpl.
    split; [reflexivity|]. split.
    + intros i u Hi. rewrite nth_error_map, Hi. simpl. eexists. split; [reflexivity|].
      destruct (is_reset_account resetEmail u) eqn:E.
      * apply is_reset_account_true in E. repeat split. tauto.
      * apply is_reset_account_false in E. repeat split. tauto.
    + unfold handleResetLookup.
      destruct (find (is_reset_account resetEmail) us) eqn:Hf; [discriminate|].
      intros _. apply map_id_on. intros u Hu.
      rewrite (find_none _ _ Hf u Hu). reflexivity.
Qed.

Lemma find_map_account (g : Account -> bool) (f : Account -> Account)
  (us : list Account) :
  find g (map f us) = option_map f (find (fun u => g (f u)) us).
Proof.
  induction us as [|u r IH]; simpl; [reflexivity|].
  destruct (g (f u)); [reflexivity | exact IH].
Qed.

Lemma find_ext_in (g h : Account -> bool) (us : list Account) :
  (forall u, In u us -> g u = h u) -> find g us = find h us.
Proof.
  induction us as [|u r IH]; simpl; [reflexivity|]. intros H.
  rewrite (H u) by tauto. destruct (h u); [reflexivity|].
  apply IH. intros v Hv. apply H. tauto.
Qed.

(** X12. Recovery then login: when stored emails are in lower case
    ([toLowerCase()] leaves them as they are), no stored username equals the
    trimmed reset email up to case, step 1 finds an account and the new
    password has at least 6 characters (UTF-16 code units), then after
    step 2 a login with the trimmed reset email and the new password
    succeeds, as the first account with that email. *)
Theorem reset_then_login (resetEmail resetNewPw : string) (us : list Account)
  (ses : option Session) :
  emails_lowercase us ->
  (forall u, In u us -> ~ same_ci (acc_username u) (trim resetEmail)) ->
  trim resetEmail <> "" ->
  handleResetLookup resetEmail us = None ->
  (6 <= str_length resetNewPw)%nat ->
  exists a,
    find (is_reset_account resetEmail) us = Some a
    /\ fst (login (trim resetEmail) resetNewPw
              {| users := snd (handleResetSave resetEmail resetNewPw resetNewPw us);
                 session := ses |})
       = Success (Profile.with_password resetNewPw a).
Proof.
  intros Hlow Hnames Hne Hlook Hlen. unfold handleResetLookup in Hlook.
  destruct (find (is_reset_account resetEmail) us) as [a|] eqn:Hf; [|discriminate].
  exists a. split; [reflexivity|].
  unfold handleResetSave. apply Nat.ltb_ge in Hlen as Hl. rewrite Hl, String.eqb_refl.
  unfold login, loadUsers. simpl.
  apply falsy_false in Hne. rewrite Hne.
  assert (Hp : falsy resetNewPw = false) by (destruct resetNewPw; [simpl in Hlen; lia | reflexivity]).
  rewrite Hp. simpl. rewrite find_map_account.
  rewrite (find_ext_in _ (is_reset_account resetEmail)).
  - rewrite Hf. cbn [option_map]. rewrite (proj2 (find_some _ _ Hf)).
    cbn [acc_password Profile.with_password]. rewrite String.eqb_refl. reflexivity.
  - intros u Hu. unfold matches_identifier.
    assert (E : acc_email (if is_reset_account resetEmail u
                           then Profile.with_password resetNewPw u else u) = acc_email u
                /\ acc_username (if is_reset_account resetEmail u
                                 then Profile.with_password resetNewPw u else u)
                   = acc_username u)
      by (destruct (is_reset_account resetEmail u); split; reflexivity).
    destruct E as [-> ->].
    pose proof (Hnames u Hu) as Hn. apply String.eqb_neq in Hn. rewrite Hn, orb_false_r.
    unfold is_reset_account.
    unfold emails_lowercase in Hlow. rewrite Forall_forall in Hlow. rewrite (Hlow u (proj2 (list_elem_of_In _ _) Hu)).
    reflexivity.
Qed.

End PasswordReset.

Lemma reset_then_login_witness :
  Login.emails_lowercase (AuthStore.users Samples2.two_accounts)
  /\ (forall u, In u (AuthStore.users Samples2.two_accounts) ->
                ~ AuthStore.same_ci (AuthStore.acc_username u) (JS.trim " Z@x.com "))
  /\ JS.trim " Z@x.com " <> ""
  /\ Login.handleResetLookup " Z@x.com " (AuthStore.users Samples2.two_accounts) = None
  /\ (6 <= JS.str_length "newpass1")%nat
  /\ exists a,
       find (Login.is_reset_account " Z@x.com ") (AuthStore.users Samples2.two_accounts)
       = Some a
       /\ fst (AuthStore.login (JS.trim " Z@x.com ") "newpass1"
                 {| AuthStore.users :=
                      snd (Login.handleResetSave " Z@x.com " "newpass1" "newpass1"
                             (AuthStore.users Samples2.two_accounts));
                    AuthStore.session := None |})
          = AuthStore.Success (Profile.with_password "newpass1" a).
Proof.
  assert (H1 : Login.emails_lowercase (AuthStore.users Samples2.two_accounts))
    by (repeat constructor).
  assert (H2 : forall u, In u (AuthStore.users Samples2.two_accounts) ->
                         ~ AuthStore.same_ci (AuthStore.acc_username u) (JS.trim " Z@x.com ")).
  { intros u [<-|[<-|[]]]; discriminate. }
  assert (H3 : JS.trim " Z@x.com " <> "") by discriminate.
  assert (H4 : Login.handleResetLookup " Z@x.com " (AuthStore.users Samples2.two_accounts)
               = None) by reflexivity.
  assert (H5 : (6 <= JS.str_length "newpass1")%nat) by (vm_compute; lia).
  repeat (split; [assumption|]).
  exact (reset_then_login " Z@x.com " "newpass1" (AuthStore.users Samples2.two_accounts)
           None H1 H2 H3 H4 H5).
Defined.

(** ** Changing and removing cart lines *)

Section CartMore.
Import JS CartStore.
Context `{B : Builtins}.

Lemma update_absent (id : string) (q : Z) (items : list CartLine) :
  find (has_id id) items = None ->
  map (fun item => if has_id id item then with_qty q item else item) items = items.
Proof.
  induction items as [|i r IH]; simpl; [reflexivity|].
  destruct (has_id id i); [discriminate|]. intros H. f_equal. exact (IH H).
Qed.



Lemma count_after_update (id : string) (q : Z) (os : option (list Order))
  (items : list CartLine) (l : CartLine) :
  unique_ids items -> find (has_id id) items = Some l ->
  getTotalCount
    {| cart := map (fun item => if has_id id item then with_qty q item else item) items;
       orders := os |}
  = getTotalCount {| cart := items; orders := os |} - item_qty l + q.
Proof.
  unfold unique_ids. induction items as [|i r IH]; simpl; [discriminate|].
  rewrite NoDup_cons. intros [Hni Hr].
  destruct (has_id id i) eqn:E.
  - intros [= <-]. rewrite !getTotalCount_cons. simpl.
    rewrite update_absent; [lia|].
    apply find_has_id_None. apply has_id_true in E. congruence.
  - intros Hf. rewrite !getTotalCount_cons, (IH Hr Hf). lia.
Qed.


(** X13. [updateQty(id, qty)] keeps the lines of the cart in their order,
    each with its id, name, price, image, delivery date and shipping cost;
    the quantity of every line with the id becomes [parseInt(qty, 10) || 1]
    and the quantity of every other line stays; the orders are left alone;
    nothing changes when no line has the id; and on a cart with unique ids
    that holds the product, whose quantities add up within the safe integers
    before and after, the total count changes by the coerced quantity minus
    the line's old quantity. *)
Theorem updateQty_frame (id : string) (v : value) (st : Store) :
  Forall2 (fun l l' =>
             item_id l' = item_id l /\ item_name l' = item_name l
             /\ item_price l' = item_price l /\ item_image l' = item_image l
             /\ item_deliveryDate l' = item_deliveryDate l
             /\ item_shippingCost l' = item_shippingCost l
             /\ item_qty l' = if String.eqb (item_id l) id then parseInt_or_1 v
                              else item_qty l)
          (cart st) (cart (updateQty id v st))
  /\ orders (updateQty id v st) = orders st
  /\ (find (has_id id) (cart st) = None -> updateQty id v st = st)
  /\ (unique_ids (cart st) ->
      counts_safely (cart st) -> counts_safely (cart (updateQty id v st)) ->
      forall l, find (has_id id) (cart st) = Some l ->
                getTotalCount (updateQty id v st)
                = getTotalCount st - item_qty l + parseInt_or_1 v).
Proof.
  destruct st as [items os]. unfold updateQty, load, save. simpl.
  split; [|split; [reflexivity|split]].
  - induction items as [|i r IH]; simpl; constructor; [|exact IH].
    unfold has_id. destruct (String.eqb (item_id i) id); repeat split.
  - intros H. rewrite update_absent by exact H. reflexivity.
  - intros Hu _ _ l Hf. apply count_after_update; assumption.
Qed.


Lemma others_after_add_existing (id : string) (q : Z) (items : list CartLine) :
  List.filter (fun item => negb (has_id id item)) (add_to_existing id q items)
  = List.filter (fun item => negb (has_id id item)) items.
Proof.
  induction items as [|i r IH]; simpl; [reflexivity|].
  destruct (has_id id i) eqn:E; simpl.
  - unfold has_id at 1. simpl. fold (has_id id i). rewrite E. reflexivity.
  - rewrite E. simpl. f_equal. exact IH.
Qed.

(** X15. [addItem] leaves every line of another product, and the orders,
    as they were. When the cart already holds the product, its line keeps the
    name, price, image, delivery date and shipping cost it was stored with,
    whatever the product passed says, and only gains quantity (within the
    safe integers); when it does not, the new line goes last, with the
    delivery date "Monday, March 2" when the product has none or an empty one
    and the shipping cost 0 when the product has none. *)
Theorem addItem_frame (p : Product) (v : value) (st : Store) :
  List.filter (fun item => negb (has_id (prod_id p) item)) (cart (addItem p v st))
  = List.filter (fun item => negb (has_id (prod_id p) item)) (cart st)
  /\ orders (addItem p v st) = orders st
  /\ (forall l, find (has_id (prod_id p)) (cart st) = Some l ->
                safe_integer (item_qty l + parseInt_or_1 v) ->
                find (has_id (prod_id p)) (cart (addItem p v st))
                = Some (with_qty (item_qty l + parseInt_or_1 v) l))
  /\ (find (has_id (prod_id p)) (cart st) = None ->
      exists l,
        cart (addItem p v st) = (cart st ++ [l])%list
        /\ item_id l = prod_id p /\ item_name l = prod_name p
        /\ item_price l = prod_price p /\ item_image l = prod_image p
        /\ item_qty l = parseInt_or_1 v
        /\ item_deliveryDate l
           = match prod_deliveryDate p with
             | Some d => if String.eqb d "" then "Monday, March 2" else d
             | None => "Monday, March 2"
             end
        /\ item_shippingCost l
           = match prod_shippingCost p with Some c => c | None => 0%float end).
Proof.
  unfold addItem, load, save.
  destruct (find (has_id (prod_id p)) (cart st)) as [l0|] eqn:Hf; simpl.
  - split; [apply others_after_add_existing|]. split; [reflexivity|].
    split; [|discriminate]. intros l [= <-] _. apply find_add_to_existing, Hf.
  - split.
    { rewrite List.filter_app. simpl. unfold has_id at 2. simpl.
      rewrite String.eqb_refl. simpl. apply app_nil_r. }
    split; [reflexivity|]. split; [discriminate|]. intros _.
    eexists. split; [reflexivity|]. simpl. repeat split.
    destruct (prod_deliveryDate p) as [[|c d]|]; reflexivity.
Qed.

End CartMore.

Lemma updateQty_frame_witness :
  CartStore.unique_ids (CartStore.cart Samples2.two_lines)
  /\ CartStore.counts_safely (CartStore.cart Samples2.two_lines)
  /\ CartStore.counts_safely
       (CartStore.cart (CartStore.updateQty "p1" (JS.Str "5") Samples2.two_lines))
  /\ find (CartStore.has_id "p1") (CartStore.cart Samples2.two_lines)
     = Some (Samples2.line "p1" 10 5 2)
  /\ CartStore.getTotalCount (CartStore.updateQty "p1" (JS.Str "5") Samples2.two_lines)
     = CartStore.getTotalCount Samples2.two_lines
       - CartStore.item_qty (Samples2.line "p1" 10 5 2) + JS.parseInt_or_1 (JS.Str "5").
Proof.
  assert (H1 : CartStore.unique_ids (CartStore.cart Samples2.two_lines))
    by (apply (bool_decide_unpack _); vm_compute; exact I).
  assert (H2 : find (CartStore.has_id "p1") (CartStore.cart Samples2.two_lines)
               = Some (Samples2.line "p1" 10 5 2)) by reflexivity.
  assert (H3 : CartStore.counts_safely (CartStore.cart Samples2.two_lines))
    by (vm_compute; discriminate).
  assert (H4 : CartStore.counts_safely
                 (CartStore.cart (CartStore.updateQty "p1" (JS.Str "5") Samples2.two_lines)))
    by (vm_compute; discriminate).
  split; [exact H1|]. split; [exact H3|]. split; [exact H4|]. split; [exact H2|].
  exact (proj2 (proj2 (proj2 (updateQty_frame "p1" (JS.Str "5") Samples2.two_lines)))
           H1 H3 H4 _ H2).
Defined.


(** ** The checkout page *)

Section CheckoutPage.
Import JS CartStore Checkout.









End CheckoutPage.


(** The total recorded for the cart of two lines [{price:10, qty:2,
    shippingCost:5}] and [{price:30, qty:1, shippingCost:0}]: 55 x 1.1 as
    doubles multiply it. *)
Example checkout_two_lines_total :
  option_map CartStore.order_total
    (fst (Checkout.handleStripeSuccess (CartStore.cart Samples2.two_lines)
            "0123-4567-89ab-cdef" "March 2" Samples2.two_lines))
  = Some 60.50000000000001%float.
Proof. vm_compute. reflexivity. Qed.

(** ** Favorites per user *)

Section FavoritesMore.
Import FavoritesStore.

Lemma load_saved (items : list Favorite) (st : Store) :
  loadFavorites (saveFavorites items st)
  = match session st with Some _ => items | None => [] end.
Proof.
  unfold loadFavorites, saveFavorites, getFavKey.
  destruct (session st) as [user|] eqn:E; simpl.
  - rewrite lookup_insert_eq. reflexivity.
  - rewrite E. reflexivity.
Qed.

Lemma fav_ids_unique_saved (items : list Favorite) (st : Store) :
  NoDup (map fav_id items) ->
  NoDup (map fav_id (getItems (saveFavorites items st))).
Proof.
  intros H. unfold getItems. rewrite load_saved.
  destruct (session st); [exact H | apply NoDup_nil_2].
Qed.

Lemma fav_push_unique (p : Product) (now : Z) (items : list Favorite) :
  existsb (has_id (prod_id p)) items = false ->
  NoDup (map fav_id items) ->
  NoDup (map fav_id (items ++ [favorite_of p now])).
Proof.
  intros Hex Hnd. rewrite map_app. simpl. apply NoDup_app.
  split; [exact Hnd|]. split; [|apply NoDup_singleton].
  intros x Hx Hx1. apply list_elem_of_singleton in Hx1. subst x.
  apply list_elem_of_In, in_map_iff in Hx as (f & Hf & Hin).
  assert (E : existsb (has_id (prod_id p)) items = true).
  { apply existsb_exists. exists f. split; [exact Hin|]. apply String.eqb_eq, Hf. }
  congruence.
Qed.

(** X19. Each product id occurs at most once among a user's favorites, and
    [addItem], [removeItem], [toggle] and [clear] keep it so. *)
Theorem favorites_stay_unique (p : Product) (id : string) (now : Z) (st : Store) :
  NoDup (map fav_id (getItems st)) ->
  NoDup (map fav_id (getItems (addItem p now st)))
  /\ NoDup (map fav_id (getItems (removeItem id st)))
  /\ NoDup (map fav_id (getItems (snd (toggle p now st))))
  /\ NoDup (map fav_id (getItems (clear st))).
Proof.
  intros Hnd. unfold getItems in Hnd. split; [|split; [|split]].
  - unfold addItem. destruct (existsb _ _) eqn:E; [exact Hnd|].
    apply fav_ids_unique_saved, fav_push_unique; assumption.
  - unfold removeItem. apply fav_ids_unique_saved, NoDup_map_filter, Hnd.
  - unfold toggle. destruct (existsb _ _) eqn:E; simpl.
    + apply fav_ids_unique_saved, NoDup_map_filter, Hnd.
    + apply fav_ids_unique_saved, fav_push_unique; assumption.
  - unfold clear. apply fav_ids_unique_saved, NoDup_nil_2.
Qed.

Lemma fav_key_inj (a b : string) :
  "lh_favorites_v1_" +:+ a = "lh_favorites_v1_" +:+ b -> a = b.
Proof. simpl. intros H. injection H. tauto. Qed.

Lemma other_user_reads (s1 s2 : AuthStore.Session) (items : list Favorite) (st : Store) :
  AuthStore.ses_id s1 <> AuthStore.ses_id s2 ->
  getItems (SessionSwitch.favorites_as (Some s2)
              (saveFavorites items (SessionSwitch.favorites_as (Some s1) st)))
  = getItems (SessionSwitch.favorites_as (Some s2) st).
Proof.
  intros Hne. unfold getItems, loadFavorites, saveFavorites, getFavKey. simpl.
  rewrite lookup_insert_ne; [reflexivity|].
  intros H. apply Hne, fav_key_inj, H.
Qed.

(** X20. Favorites are kept per user id. What one user adds, removes,
    toggles or clears does not change what a user with another id reads;
    after a logout the list read is empty; and a user who logs in again, with
    the same id, reads the favorites left before the logout. *)
Theorem favorites_per_user (s1 s2 : AuthStore.Session) (p : Product) (id : string)
  (now : Z) (st : Store) :
  AuthStore.ses_id s1 <> AuthStore.ses_id s2 ->
  let as1 := SessionSwitch.favorites_as (Some s1) st in
  let read2 := fun st' => getItems (SessionSwitch.favorites_as (Some s2) st') in
  read2 (addItem p now as1) = read2 st
  /\ read2 (removeItem id as1) = read2 st
  /\ read2 (snd (toggle p now as1)) = read2 st
  /\ read2 (clear as1) = read2 st
  /\ getItems (SessionSwitch.favorites_as None (snd (toggle p now as1))) = []
  /\ (forall s1', AuthStore.ses_id s1' = AuthStore.ses_id s1 ->
                  getItems (SessionSwitch.favorites_as (Some s1')
                              (SessionSwitch.favorites_as None (snd (toggle p now as1))))
                  = getItems (snd (toggle p now as1))).
Proof.
  intros Hne as1 read2. unfold read2, as1.
  split; [|split; [|split; [|split; [|split]]]].
  - unfold addItem. destruct (existsb _ _); [reflexivity|]. apply other_user_reads, Hne.
  - unfold removeItem. apply other_user_reads, Hne.
  - unfold toggle. destruct (existsb _ _); simpl; apply other_user_reads, Hne.
  - unfold clear. apply other_user_reads, Hne.
  - reflexivity.
  - intros s1' He. unfold toggle. destruct (existsb _ _); simpl;
      unfold getItems, loadFavorites, getFavKey; simpl; rewrite He; reflexivity.
Qed.

Lemma length_filter_fav (id : string) (l : list Favorite) :
  NoDup (map fav_id l) -> existsb (has_id id) l = true ->
  S (length (List.filter (fun i => negb (has_id id i)) l)) = length l.
Proof.
  induction l as [|a r IH]; simpl; [discriminate|].
  rewrite NoDup_cons. intros [Hni Hr].
  destruct (has_id id a) eqn:E; simpl.
  - intros _. f_equal. f_equal. apply filter_all.
    intros b Hb. apply negb_true_iff, String.eqb_neq. intros Hbe. apply Hni.
    apply String.eqb_eq in E. apply list_elem_of_In, in_map_iff.
    exists b. split; [congruence | exact Hb].
  - intros Hex. f_equal. apply IH; assumption.
Qed.

(** X21. For a logged-in user whose favorites have unique ids, [toggle]
    changes the number of favorites by exactly one: one more when it returns
    true, one less when it returns false. *)
Theorem toggle_changes_count_by_one (p : Product) (now : Z) (st : Store) :
  session st <> None -> NoDup (map fav_id (getItems st)) ->
  (fst (toggle p now st) = true -> getCount (snd (toggle p now st)) = S (getCount st))
  /\ (fst (toggle p now st) = false -> S (getCount (snd (toggle p now st))) = getCount st).
Proof.
  intros Hs Hnd. unfold getCount, toggle, getItems in *.
  destruct (existsb (has_id (prod_id p)) (loadFavorites st)) eqn:E; simpl;
    rewrite load_saved; destruct (session st) as [u|]; try contradiction.
  - split; [discriminate|]. intros _. apply length_filter_fav; assumption.
  - split; [|discriminate]. intros _. rewrite length_app. simpl. lia.
Qed.

End FavoritesMore.

Lemma favorites_stay_unique_witness :
  NoDup (map FavoritesStore.fav_id (FavoritesStore.getItems Samples.amina_favorites))
  /\ NoDup (map FavoritesStore.fav_id
              (FavoritesStore.getItems
                 (snd (FavoritesStore.toggle Samples.scarf 1 Samples.amina_favorites)))).
Proof.
  assert (H : NoDup (map FavoritesStore.fav_id
                       (FavoritesStore.getItems Samples.amina_favorites)))
    by apply NoDup_nil_2.
  split; [exact H|].
  exact (proj1 (proj2 (proj2 (favorites_stay_unique Samples.scarf "p1" 1
                                Samples.amina_favorites H)))).
Defined.

Lemma favorites_per_user_witness :
  AuthStore.ses_id Samples.amina_session <> AuthStore.ses_id Samples2.zainab_session
  /\ FavoritesStore.getItems
       (SessionSwitch.favorites_as (Some Samples2.zainab_session)
          (FavoritesStore.addItem Samples.scarf 1
             (SessionSwitch.favorites_as (Some Samples.amina_session) Samples.guest)))
     = FavoritesStore.getItems
         (SessionSwitch.favorites_as (Some Samples2.zainab_session) Samples.guest).
Proof.
  assert (H : AuthStore.ses_id Samples.amina_session
              <> AuthStore.ses_id Samples2.zainab_session) by discriminate.
  split; [exact H|].
  exact (proj1 (favorites_per_user Samples.amina_session Samples2.zainab_session
                  Samples.scarf "p1" 1 Samples.guest H)).
Defined.

Lemma toggle_changes_count_by_one_witness :
  FavoritesStore.session Samples.amina_favorites <> None
  /\ NoDup (map FavoritesStore.fav_id (FavoritesStore.getItems Samples.amina_favorites))
  /\ fst (FavoritesStore.toggle Samples.scarf 1 Samples.amina_favorites) = true
  /\ FavoritesStore.getCount (snd (FavoritesStore.toggle Samples.scarf 1 Samples.amina_favorites))
     = S (FavoritesStore.getCount Samples.amina_favorites).
Proof.
  assert (H1 : FavoritesStore.session Samples.amina_favorites <> None) by discriminate.
  assert (H2 : NoDup (map FavoritesStore.fav_id
                        (FavoritesStore.getItems Samples.amina_favorites)))
    by apply NoDup_nil_2.
  assert (H3 : fst (FavoritesStore.toggle Samples.scarf 1 Samples.amina_favorites) = true)
    by reflexivity.
  split; [exact H1|]. split; [exact H2|]. split; [exact H3|].
  exact (proj1 (toggle_changes_count_by_one Samples.scarf 1 Samples.amina_favorites H1 H2) H3).
Defined.

(** ** The theme across toggles, system changes and reloads *)

Section ThemeMore.
Import Theme.

(** Where the module is after loading and any events: the key and the
    document attribute both name the current theme. *)
Lemma theme_in_sync_load (stored_value : option string) (os : bool) :
  stored (module_load stored_value os)
  = Some (theme_name (_isDark (module_load stored_value os)))
  /\ data_theme (module_load stored_value os)
     = Some (theme_name (_isDark (module_load stored_value os))).
Proof. split; reflexivity. Qed.

Lemma theme_in_sync_step (w : World) (e : Event) :
  stored w = Some (theme_name (_isDark w))
  /\ data_theme w = Some (theme_name (_isDark w)) ->
  stored (step w e) = Some (theme_name (_isDark (step w e)))
  /\ data_theme (step w e) = Some (theme_name (_isDark (step w e))).
Proof.
  intros [Hs Hd]. destruct e as [m|]; simpl.
  - rewrite (on_os_change_set m (_isDark w) w Hs). tauto.
  - split; reflexivity.
Qed.

Lemma theme_in_sync_run (evs : list Event) (w : World) :
  stored w = Some (theme_name (_isDark w))
  /\ data_theme w = Some (theme_name (_isDark w)) ->
  stored (run evs w) = Some (theme_name (_isDark (run evs w)))
  /\ data_theme (run evs w) = Some (theme_name (_isDark (run evs w))).
Proof.
  revert w. induction evs as [|e evs IH]; intros w H; [exact H|].
  apply (IH (step w e)), theme_in_sync_step, H.
Qed.

Lemma resolve_stored_theme (isDark os : bool) :
  resolveInitialTheme (Some (theme_name isDark)) os = isDark.
Proof. destruct isDark; reflexivity. Qed.

(** X22. After the module has loaded and whatever toggles and system
    changes followed, the value under the theme key and the [data-theme]
    attribute both name the theme in force; so a later load of the module
    resolves that same theme, whatever the system preference is then. *)
Theorem theme_persisted_and_restored (stored_value : option string) (os os' : bool)
  (evs : list Event) :
  let w := run evs (module_load stored_value os) in
  stored w = Some (theme_name (_isDark w))
  /\ data_theme w = Some (theme_name (_isDark w))
  /\ resolveInitialTheme (stored w) os' = _isDark w
  /\ _isDark (module_load (stored w) os') = _isDark w.
Proof.
  cbv zeta.
  destruct (theme_in_sync_run evs (module_load stored_value os)
              (theme_in_sync_load stored_value os)) as [Hs Hd].
  split; [exact Hs|]. split; [exact Hd|].
  rewrite Hs. split; [apply resolve_stored_theme|].
  unfold module_load. simpl. apply resolve_stored_theme.
Qed.

Lemma run_snoc (evs : list Event) (e : Event) (w : World) :
  run (evs ++ [e]) w = step (run evs w) e.
Proof. unfold run. rewrite fold_left_app. reflexivity. Qed.

(** X23. The theme in force after loading and any sequence of toggles and
    system changes is the theme resolved at load, flipped once per toggle:
    system changes have no part in it, and two toggles in a row bring back
    the state before them. *)
Theorem theme_is_initial_flipped_per_toggle (stored_value : option string) (os : bool)
  (evs : list Event) :
  let toggles :=
    length (List.filter (fun e => match e with Toggle => true | OsChange _ => false end)
                        evs) in
  let w := run evs (module_load stored_value os) in
  _isDark w = xorb (resolveInitialTheme stored_value os) (Nat.odd toggles)
  /\ toggleTheme (toggleTheme w) = w.
Proof.
  cbv zeta. split.
  - induction evs as [|e evs IH] using rev_ind; [simpl; destruct (resolveInitialTheme _ _); reflexivity|].
    rewrite run_snoc, List.filter_app, length_app.
    pose proof (theme_in_sync_run evs (module_load stored_value os)
                  (theme_in_sync_load stored_value os)) as [Hs _].
    destruct e as [m|]; simpl.
    + rewrite (on_os_change_set m _ _ Hs), IH, Nat.add_0_r. reflexivity.
    + rewrite IH, Nat.add_1_r, Nat.odd_succ, <- Nat.negb_odd.
      destruct (resolveInitialTheme _ _), (Nat.odd _); reflexivity.
  - destruct (theme_in_sync_run evs (module_load stored_value os)
                (theme_in_sync_load stored_value os)) as [Hs Hd].
    destruct (run evs (module_load stored_value os)) as [s d b]. simpl in *.
    unfold toggleTheme, applyTheme. simpl. rewrite negb_involutive, Hs, Hd. reflexivity.
Qed.

End ThemeMore.

(** ** The password strength meter *)

Section Strength.
Import JS JSText PasswordStrength.

Lemma list_of_append (a b : string) :
  list_ascii_of_string (a +:+ b) = (list_ascii_of_string a ++ list_ascii_of_string b)%list.
Proof. induction a as [|c r IH]; simpl; [reflexivity|]. rewrite IH. reflexivity. Qed.

Lemma length_of_append (a b : string) :
  str_length (a +:+ b) = (str_length a + str_length b)%nat.
Proof. induction a as [|c r IH]; simpl; [reflexivity|]. rewrite IH. lia. Qed.

Lemma test_append (class : ascii -> bool) (a b : string) :
  test class a = true -> test class (a +:+ b) = true.
Proof.
  unfold test. rewrite list_of_append, existsb_app. intros ->. reflexivity.
Qed.

Lemma point_le (x y : bool) :
  (x = true -> y = true) -> ((if x then 1 else 0) <= (if y then 1 else 0))%nat.
Proof. destruct x, y; intros H; first [lia | discriminate (H eq_refl)]. Qed.

(** X24. The strength score is 0, 1, 2 or 3, so it always selects one of
    the four labels; it is 3 exactly for a password of at least 8 characters
    (UTF-16 code units) with an upper-case letter of A to Z or a digit and a
    character that is neither a letter of A to Z or a to z nor a digit; and
    typing more characters after it never lowers it. *)
Theorem password_strength_range_and_growth (pw more : string) :
  (getPwStrength pw <= 3)%nat
  /\ (exists label, nth_error STRENGTH_LABELS (getPwStrength pw) = Some label)
  /\ (getPwStrength pw = 3%nat
      <-> (8 <= str_length pw)%nat
          /\ (test is_upper pw = true \/ test is_digit pw = true)
          /\ test (fun c => negb (is_alnum c)) pw = true)
  /\ (getPwStrength pw <= getPwStrength (pw +:+ more))%nat.
Proof.
  assert (Hr : (getPwStrength pw <= 3)%nat).
  { unfold getPwStrength. destruct (falsy pw); [lia|].
    destruct (_ <=? _)%nat, (_ || _)%bool, (test _ pw); simpl; lia. }
  split; [exact Hr|]. split; [|split].
  - unfold STRENGTH_LABELS.
    destruct (getPwStrength pw) as [|[|[|[|n]]]]; simpl; eauto. lia.
  - unfold getPwStrength. destruct pw as [|c r].
    + cbn [falsy]. split; [discriminate|]. intros [H _]. simpl in H. lia.
    + cbn [falsy]. rewrite <- orb_true_iff. split.
      * intros H.
        destruct (Nat.leb_spec 8 (str_length (String c r)));
          destruct (test is_upper (String c r) || test is_digit (String c r))%bool;
          destruct (test (fun c => negb (is_alnum c)) (String c r));
          simpl in H; first [lia | auto].
      * intros (H1 & H2 & H3). apply Nat.leb_le in H1. rewrite H1, H2, H3. reflexivity.
  - unfold getPwStrength. destruct pw as [|c r]; [cbn [falsy]; lia|].
    cbn [falsy append]. fold (append r more).
    change (String c (r +:+ more)) with (String c r +:+ more).
    repeat apply Nat.add_le_mono; apply point_le.
    + rewrite !Nat.leb_le, length_of_append. lia.
    + rewrite !orb_true_iff. intros [H|H]; [left | right]; apply test_append, H.
    + apply test_append.
Qed.

End Strength.

(** ** The card form *)

Section CardForm.
Import JS JSText StripePayment.

Lemma string_length_list (s : string) :
  String.length s = length (list_ascii_of_string s).
Proof. induction s as [|c r IH]; simpl; [reflexivity|]. rewrite IH. reflexivity. Qed.

Lemma filter_trimStart (P : ascii -> bool) (s : string) :
  (forall c, AsciiText.is_ws c = true -> P c = false) ->
  List.filter P (list_ascii_of_string (AsciiText.trimStart s))
  = List.filter P (list_ascii_of_string s).
Proof.
  intros HP. induction s as [|c r IH]; simpl; [reflexivity|].
  destruct (AsciiText.is_ws c) eqn:E; [|reflexivity].
  rewrite (HP c E). exact IH.
Qed.

Lemma filter_trimEnd (P : ascii -> bool) (s : string) :
  (forall c, AsciiText.is_ws c = true -> P c = false) ->
  List.filter P (list_ascii_of_string (AsciiText.trimEnd s))
  = List.filter P (list_ascii_of_string s).
Proof.
  intros HP. induction s as [|c r IH]; simpl; [reflexivity|].
  destruct (AsciiText.is_ws c) eqn:E; simpl.
  - rewrite (HP c E). destruct (AsciiText.trimEnd r) eqn:Er; simpl in *.
    + exact IH.
    + rewrite (HP c E). exact IH.
  - rewrite IH. reflexivity.
Qed.

Lemma filter_trim (P : ascii -> bool) (s : string) :
  (forall c, AsciiText.is_ws c = true -> P c = false) ->
  List.filter P (list_ascii_of_string (AsciiText.trim s))
  = List.filter P (list_ascii_of_string s).
Proof.
  intros HP. unfold AsciiText.trim. rewrite filter_trimEnd, filter_trimStart by exact HP.
  reflexivity.
Qed.

Lemma filter_group4 (P : ascii -> bool) (n : nat) :
  P " "%char = false ->
  forall ds, (length ds <= n)%nat -> Forall (fun c => P c = true) ds ->
             List.filter P (group4 ds) = ds.
Proof.
  intros Hsp. induction n as [|n IH]; intros ds Hlen Hall.
  - destruct ds; [reflexivity | simpl in Hlen; lia].
  - destruct ds as [|a [|b [|c [|d r]]]];
      try (apply filter_all; intros x Hx;
           rewrite Forall_forall in Hall; apply Hall, list_elem_of_In, Hx).
    inversion Hall as [|? ? Ha H1]; subst. inversion H1 as [|? ? Hb H2]; subst.
    inversion H2 as [|? ? Hc H3]; subst. inversion H3 as [|? ? Hd H4]; subst.
    cbn [group4 List.filter]. rewrite Ha, Hb, Hc, Hd, Hsp.
    rewrite IH; [reflexivity | simpl in Hlen; lia | exact H4].
Qed.

Lemma digits_are_digits (n : nat) (l : list ascii) :
  Forall (fun c => is_digit c = true) (take n (remove_non_digits l)).
Proof.
  apply Forall_take, Forall_forall. intros c Hc.
  apply list_elem_of_In, filter_In in Hc. tauto.
Qed.

Lemma ws_not_digit (c : ascii) : AsciiText.is_ws c = true -> is_digit c = false.
Proof. destruct c as [[] [] [] [] [] [] [] []]; vm_compute; congruence. Qed.

Lemma digits_not_ws (ds : list ascii) :
  Forall (fun c => is_digit c = true) ds ->
  Forall (fun c => negb (AsciiText.is_ws c) = true) ds.
Proof.
  intros H. eapply Forall_impl; [exact H|]. simpl.
  intros c Hc. destruct (AsciiText.is_ws c) eqn:E; [|reflexivity].
  apply ws_not_digit in E. congruence.
Qed.

Lemma card_digits (raw : string) :
  remove_non_digits (list_ascii_of_string (formatCardNumber raw))
  = take 16 (remove_non_digits (list_ascii_of_string raw)).
Proof.
  unfold formatCardNumber, remove_non_digits at 1.
  rewrite (filter_trim is_digit) by exact ws_not_digit.
  rewrite list_ascii_of_string_of_list_ascii.
  apply (filter_group4 is_digit 16); [reflexivity | | apply digits_are_digits].
  rewrite length_take. lia.
Qed.

Lemma card_without_ws (raw : string) :
  remove_ws (list_ascii_of_string (formatCardNumber raw))
  = take 16 (remove_non_digits (list_ascii_of_string raw)).
Proof.
  unfold formatCardNumber, remove_ws.
  rewrite (filter_trim (fun c => negb (AsciiText.is_ws c)))
    by (intros c ->; reflexivity).
  rewrite list_ascii_of_string_of_list_ascii.
  apply (filter_group4 (fun c => negb (AsciiText.is_ws c)) 16);
    [reflexivity | | apply digits_not_ws, digits_are_digits].
  rewrite length_take. lia.
Qed.

(** X25. What [formatCardNumber] shows holds exactly the first 16 digits
    of what was typed, in order: they are what is left when the non-digits,
    or the white space, are taken out again. Formatting what was already
    formatted changes nothing. *)
Theorem card_number_format (raw : string) :
  remove_non_digits (list_ascii_of_string (formatCardNumber raw))
  = take 16 (remove_non_digits (list_ascii_of_string raw))
  /\ remove_ws (list_ascii_of_string (formatCardNumber raw))
     = take 16 (remove_non_digits (list_ascii_of_string raw))
  /\ formatCardNumber (formatCardNumber raw) = formatCardNumber raw.
Proof.
  split; [apply card_digits|]. split; [apply card_without_ws|].
  unfold formatCardNumber at 1. rewrite card_digits, take_take. reflexivity.
Qed.

Lemma expiry_digits (raw : string) :
  remove_non_digits (list_ascii_of_string (formatExpiry raw))
  = take 4 (remove_non_digits (list_ascii_of_string raw)).
Proof.
  unfold formatExpiry.
  pose proof (digits_are_digits 4 (list_ascii_of_string raw)) as Hd.
  set (d := take 4 (remove_non_digits (list_ascii_of_string raw))) in *.
  assert (Hall : forall l, Forall (fun c => is_digit c = true) l ->
                           List.filter is_digit l = l).
  { intros l Hl. apply filter_all. intros x Hx.
    rewrite Forall_forall in Hl. apply Hl, list_elem_of_In, Hx. }
  destruct (2 <? length d)%nat; rewrite list_ascii_of_string_of_list_ascii;
    unfold remove_non_digits at 1; [|apply Hall, Hd].
  rewrite List.filter_app. cbn [List.filter is_digit].
  change (is_digit "/") with false. cbv iota.
  rewrite !Hall by (first [apply Forall_take | apply Forall_drop]; exact Hd).
  apply take_drop.
Qed.

Lemma expiry_length (raw : string) :
  let d := take 4 (remove_non_digits (list_ascii_of_string raw)) in
  String.length (formatExpiry raw)
  = if (2 <? length d)%nat then S (length d) else length d.
Proof.
  cbv zeta. unfold formatExpiry.
  set (d := take 4 (remove_non_digits (list_ascii_of_string raw))).
  destruct (Nat.ltb_spec 2 (length d)); rewrite string_length_list,
    list_ascii_of_string_of_list_ascii; [|reflexivity].
  rewrite length_app. cbn [length]. rewrite length_take, length_drop. lia.
Qed.

(** X26. [formatExpiry] and [formatCvc] keep the first 4 digits typed:
    the expiry is shown as at most 5 characters, 5 exactly when at least 4
    digits were typed, and the CVC as at most 4; taking the non-digits out of
    the expiry gives the digits back, the CVC is the digits, and formatting
    again changes neither. *)
Theorem expiry_and_cvc_format (raw : string) :
  let digits := remove_non_digits (list_ascii_of_string raw) in
  (String.length (formatExpiry raw) <= 5)%nat
  /\ (String.length (formatExpiry raw) = 5%nat <-> (4 <= length digits)%nat)
  /\ remove_non_digits (list_ascii_of_string (formatExpiry raw)) = take 4 digits
  /\ formatExpiry (formatExpiry raw) = formatExpiry raw
  /\ list_ascii_of_string (formatCvc raw) = take 4 digits
  /\ (String.length (formatCvc raw) <= 4)%nat
  /\ formatCvc (formatCvc raw) = formatCvc raw.
Proof.
  cbv zeta. pose proof (expiry_length raw) as Hl. cbv zeta in Hl.
  pose proof (length_take (remove_non_digits (list_ascii_of_string raw)) 4) as Ht.
  assert (Hcvc : list_ascii_of_string (formatCvc raw)
                 = take 4 (remove_non_digits (list_ascii_of_string raw)))
    by apply list_ascii_of_string_of_list_ascii.
  split; [|split; [|split; [|split; [|split; [|split]]]]].
  - rewrite Hl. destruct (_ <? _)%nat; lia.
  - rewrite Hl. destruct (Nat.ltb_spec 2 (length (take 4 (remove_non_digits
                                                           (list_ascii_of_string raw))))); lia.
  - apply expiry_digits.
  - unfold formatExpiry at 1. rewrite expiry_digits, take_take. reflexivity.
  - exact Hcvc.
  - rewrite string_length_list, Hcvc. lia.
  - unfold formatCvc at 1. rewrite Hcvc.
    assert (Hall : List.filter is_digit (take 4 (remove_non_digits (list_ascii_of_string raw)))
                   = take 4 (remove_non_digits (list_ascii_of_string raw))).
    { apply filter_all. intros x Hx.
      pose proof (digits_are_digits 4 (list_ascii_of_string raw)) as Hd.
      rewrite Forall_forall in Hd. apply Hd, list_elem_of_In, Hx. }
    unfold remove_non_digits at 1. rewrite Hall, take_take. reflexivity.
Qed.

Lemma units_digit (c : ascii) : is_digit c = true -> units c = 1%nat.
Proof. destruct c as [[] [] [] [] [] [] [] []]; vm_compute; congruence. Qed.

Lemma str_length_of_list (l : list ascii) :
  Forall (fun c => units c = 1%nat) l ->
  str_length (string_of_list_ascii l) = length l.
Proof.
  induction 1 as [|c r Hc Hr IH]; simpl; [reflexivity|]. rewrite Hc, IH. reflexivity.
Qed.

Lemma digits_one_unit (n : nat) (l : list ascii) :
  Forall (fun c => units c = 1%nat) (take n (remove_non_digits l)).
Proof.
  eapply Forall_impl; [apply digits_are_digits|]. exact units_digit.
Qed.

(** The formatted expiry and CVC are ASCII text: they have as many UTF-16
    code units as characters. *)
Lemma str_length_formatted (raw : string) :
  str_length (formatExpiry raw) = String.length (formatExpiry raw)
  /\ str_length (formatCvc raw) = String.length (formatCvc raw).
Proof.
  split.
  - unfold formatExpiry.
    pose proof (digits_one_unit 4 (list_ascii_of_string raw)) as Hd.
    set (d := take 4 (remove_non_digits (list_ascii_of_string raw))) in *.
    destruct (2 <? length d)%nat;
      rewrite str_length_of_list, string_length_list, ?list_ascii_of_string_of_list_ascii;
      try reflexivity; [|exact Hd].
    apply Forall_app. split; [apply Forall_take, Hd|].
    constructor; [reflexivity | apply Forall_drop, Hd].
  - unfold formatCvc.
    rewrite str_length_of_list, string_length_list, ?list_ascii_of_string_of_list_ascii;
      [reflexivity | apply digits_one_unit].
Qed.

End CardForm.

Section CardFormValidation.
Import JS JSText StripePayment.
Context `{B : Builtins}.

(** X27. With the three card fields as the form formats them, [validate]
    lets the payment through exactly when [trim()] leaves something of the
    name and at least 16, 4 and 3 digits were typed for card number, expiry
    and CVC; the payment then is declined for the card 4000 0000 0000 0002,
    asks for authentication for 4000 0025 0000 3155, and succeeds for every
    other number. *)
Theorem card_form_validation (rawCard rawExpiry rawCvc name : string) :
  let digits := fun raw => remove_non_digits (list_ascii_of_string raw) in
  let card := formatCardNumber rawCard in
  let expiry := formatExpiry rawExpiry in
  let cvc := formatCvc rawCvc in
  (validate card expiry cvc name = None
   <-> trim name <> ""
       /\ (16 <= length (digits rawCard))%nat
       /\ (4 <= length (digits rawExpiry))%nat
       /\ (3 <= length (digits rawCvc))%nat)
  /\ (validate card expiry cvc name = None ->
      (take 16 (digits rawCard) = list_ascii_of_string "4000000000000002" ->
       handlePay card expiry cvc name = PayError err_declined)
      /\ (take 16 (digits rawCard) = list_ascii_of_string "4000002500003155" ->
          handlePay card expiry cvc name = PayAuthChallenge)
      /\ (take 16 (digits rawCard) <> list_ascii_of_string "4000000000000002" ->
          take 16 (digits rawCard) <> list_ascii_of_string "4000002500003155" ->
          handlePay card expiry cvc name = PaySucceeded)).
Proof.
  cbv zeta. split.
  - unfold validate. rewrite card_without_ws.
    rewrite (proj1 (str_length_formatted rawExpiry)), (proj2 (str_length_formatted rawCvc)).
    pose proof (expiry_length rawExpiry) as He. cbv zeta in He.
    rewrite (string_length_list (formatCvc rawCvc)).
    unfold formatCvc. rewrite list_ascii_of_string_of_list_ascii, He, !length_take.
    destruct (falsy (trim name)) eqn:En.
    { apply falsy_true in En. split; [discriminate | tauto]. }
    apply falsy_false in En.
    destruct (Nat.ltb_spec (Nat.min 16 (length (remove_non_digits (list_ascii_of_string rawCard)))) 16).
    { split; [discriminate | lia]. }
    destruct (Nat.ltb_spec 2 (Nat.min 4 (length (remove_non_digits (list_ascii_of_string rawExpiry))))).
    + destruct (Nat.ltb_spec (S (Nat.min 4 (length (remove_non_digits (list_ascii_of_string rawExpiry))))) 5).
      { split; [discriminate | lia]. }
      destruct (Nat.ltb_spec (Nat.min 4 (length (remove_non_digits (list_ascii_of_string rawCvc)))) 3).
      { split; [discriminate | lia]. }
      split; [intros _|reflexivity]. repeat split; [exact En | lia..].
    + destruct (Nat.ltb_spec (Nat.min 4 (length (remove_non_digits (list_ascii_of_string rawExpiry)))) 5);
        [|lia]. split; [discriminate | lia].
  - intros Hv. unfold handlePay. rewrite Hv, card_without_ws.
    set (ds := take 16 (remove_non_digits (list_ascii_of_string rawCard))).
    unfold TEST_CARDS. cbn [find fst]. split; [|split].
    + intros ->. vm_compute. reflexivity.
    + intros ->. vm_compute. reflexivity.
    + intros H1 H2.
      rewrite (bool_decide_eq_false_2 (remove_ws (list_ascii_of_string "4000 0000 0000 0002") = ds))
        by (intros H; apply H1; rewrite <- H; reflexivity).
      rewrite (bool_decide_eq_false_2 (remove_ws (list_ascii_of_string "4000 0025 0000 3155") = ds))
        by (intros H; apply H2; rewrite <- H; reflexivity).
      destruct (bool_decide _); reflexivity.
Qed.

End CardFormValidation.

(** ** Changing the password, then logging in *)

Section PasswordChangeMore.
Import JS AuthStore Profile.
Context `{B : Builtins}.

(** X28. The in-session password change checks the new password first: a
    new password shorter than 6 characters (UTF-16 code units), or different from its
    confirmation, is refused whatever the current password entered, and the
    account list is left as it was. After a successful change, a login with
    the account's username and the new password succeeds, and one with the
    old password, when that is not empty and differs from the new one,
    fails with the auth error; this for an account that is the first its own
    username identifies. *)
Theorem change_password_then_login (user : Session)
  (currentPw newPw confirmPw : string) (us : list Account) (a : Account)
  (ses : option Session) :
  ((str_length newPw < 6)%nat ->
   handleChangePassword user currentPw newPw confirmPw us = (PwError err_too_short, us))
  /\ ((6 <= str_length newPw)%nat -> newPw <> confirmPw ->
      handleChangePassword user currentPw newPw confirmPw us = (PwError err_no_match, us))
  /\ (fst (handleChangePassword user currentPw newPw confirmPw us) = PwSuccess ->
      find (fun u => String.eqb (acc_id u) (ses_id user)) us = Some a ->
      find (matches_identifier (acc_username a)) us = Some a ->
      acc_username a <> "" ->
      let st' := {| users := snd (handleChangePassword user currentPw newPw confirmPw us);
                    session := ses |} in
      fst (login (acc_username a) newPw st') = Success (with_password newPw a)
      /\ (currentPw <> newPw -> currentPw <> "" ->
          fst (login (acc_username a) currentPw st') = Failure err_bad_password)).
Proof.
  unfold handleChangePassword. split; [|split].
  - intros H. apply Nat.ltb_lt in H. rewrite H. reflexivity.
  - intros H Hne. apply Nat.ltb_ge in H. rewrite H.
    apply String.eqb_neq in Hne. rewrite Hne. reflexivity.
  - destruct (Nat.ltb_spec (str_length newPw) 6) as [|Hlen]; [discriminate|].
    destruct (negb (String.eqb newPw confirmPw)); [discriminate|].
    intros Hok Hid Hname Hne. rewrite Hid in *.
    destruct (String.eqb (acc_password a) currentPw) eqn:Ecur; [|discriminate].
    cbn [negb snd]. cbv zeta. unfold login, loadUsers. cbn [users].
    apply falsy_false in Hne. rewrite Hne.
    assert (Hfa : (if String.eqb (acc_id a) (ses_id user) then with_password newPw a else a)
                  = with_password newPw a).
    { apply find_some in Hid as [_ ->]. reflexivity. }
    assert (Hfind : find (matches_identifier (acc_username a))
                      (map (fun u => if String.eqb (acc_id u) (ses_id user)
                                     then with_password newPw u else u) us)
                    = Some (with_password newPw a)).
    { rewrite find_map_account.
      rewrite (find_ext_in _ (matches_identifier (acc_username a))).
      - rewrite Hname. cbn [option_map]. rewrite Hfa. reflexivity.
      - intros u _. unfold matches_identifier.
        destruct (String.eqb (acc_id u) (ses_id user)); reflexivity. }
    rewrite Hfind. cbn [acc_password with_password].
    assert (Hp : falsy newPw = false) by (destruct newPw; [simpl in Hlen; lia | reflexivity]).
    rewrite Hp. cbn [orb]. rewrite String.eqb_refl. cbn [negb fst].
    split; [reflexivity|]. intros Hdiff Hcur.
    apply falsy_false in Hcur. rewrite Hcur. cbn [orb].
    assert (En : String.eqb newPw currentPw = false)
      by (apply String.eqb_neq; congruence).
    rewrite En. reflexivity.
Qed.

End PasswordChangeMore.

Lemma login_ignores_identifier_case_witness :
  AuthStore.same_ci "AMINA" "amina"
  /\ AuthStore.login "AMINA" "secret1" Samples.amina_registered
     = AuthStore.login "amina" "secret1" Samples.amina_registered.
Proof.
  assert (H : AuthStore.same_ci "AMINA" "amina") by reflexivity.
  split; [exact H|].
  exact (login_ignores_identifier_case "AMINA" "amina" "secret1" Samples.amina_registered H).
Defined.

Lemma register_success_effects_witness :
  AuthStore.register " amina" "A@x.com " "secret1" 1 Samples.no_accounts
  = (AuthStore.Success Samples.amina, Samples.amina_registered)
  /\ AuthStore.users Samples.amina_registered
     = (AuthStore.users Samples.no_accounts ++ [Samples.amina])%list
  /\ AuthStore.getCurrentUser Samples.amina_registered
     = Some (SessionSwitch.safe_fields Samples.amina)
  /\ AuthStore.isLoggedIn Samples.amina_registered = true.
Proof.
  assert (H : AuthStore.register " amina" "A@x.com " "secret1" 1 Samples.no_accounts
              = (AuthStore.Success Samples.amina, Samples.amina_registered)).
  { vm_compute. reflexivity. }
  split; [exact H|].
  pose proof (register_success_effects " amina" "A@x.com " "secret1" 1 Samples.no_accounts
                Samples.amina_registered Samples.amina H) as (H1 & H2 & H3 & _).
  split; [exact H1|]. split; [exact H2 | exact H3].
Defined.

Lemma emails_stay_lowercase_witness :
  Login.emails_lowercase (AuthStore.users Samples2.two_accounts)
  /\ Login.emails_lowercase
       (AuthStore.users
          (snd (AuthStore.register "maryam" "M@X.com" "secret3" 3
                  {| AuthStore.users := AuthStore.users Samples2.two_accounts;
                     AuthStore.session := None |}))).
Proof.
  assert (H : Login.emails_lowercase (AuthStore.users Samples2.two_accounts))
    by (repeat constructor).
  split; [exact H|].
  exact (proj1 (emails_stay_lowercase (AuthStore.users Samples2.two_accounts) H)
           "maryam" "M@X.com" "secret3" 3 None).
Defined.

Lemma change_password_then_login_witness :
  let us := AuthStore.users Samples2.two_accounts in
  let changed := Profile.handleChangePassword Samples.amina_session
                   "secret1" "secret9" "secret9" us in
  fst changed = Profile.PwSuccess
  /\ fst (AuthStore.login "amina" "secret9"
            {| AuthStore.users := snd changed; AuthStore.session := None |})
     = AuthStore.Success (Profile.with_password "secret9" Samples.amina)
  /\ fst (AuthStore.login "amina" "secret1"
            {| AuthStore.users := snd changed; AuthStore.session := None |})
     = AuthStore.Failure AuthStore.err_bad_password.
Proof.
  intros us changed.
  assert (H1 : fst changed = Profile.PwSuccess) by reflexivity.
  assert (H2 : find (fun u => String.eqb (AuthStore.acc_id u)
                                (AuthStore.ses_id Samples.amina_session)) us
               = Some Samples.amina) by reflexivity.
  assert (H3 : find (AuthStore.matches_identifier (AuthStore.acc_username Samples.amina)) us
               = Some Samples.amina) by reflexivity.
  assert (H4 : AuthStore.acc_username Samples.amina <> "") by discriminate.
  pose proof (proj2 (proj2 (change_password_then_login Samples.amina_session
                              "secret1" "secret9" "secret9" us Samples.amina None))
                H1 H2 H3 H4) as [Hnew Hold].
  split; [exact H1|]. split; [exact Hnew|].
  apply Hold; discriminate.
Defined.

Lemma recently_viewed_keeps_unique_witness :
  NoDup (map RecentlyViewedStore.rv_id (RecentlyViewedStore.getItems Samples2.guest_viewer))
  /\ NoDup (map RecentlyViewedStore.rv_id
              (RecentlyViewedStore.getItems
                 (RecentlyViewedStore.addItem (Samples2.product "p1") 1
                    Samples2.guest_viewer))).
Proof.
  assert (H : NoDup (map RecentlyViewedStore.rv_id
                       (RecentlyViewedStore.getItems Samples2.guest_viewer)))
    by apply NoDup_nil_2.
  split; [exact H|].
  exact (proj1 (recently_viewed_keeps_unique (Samples2.product "p1") 1
                  Samples2.guest_viewer) H).
Defined.
